(** * A shallow embedding of [Scripts/assembler.py] (Hack assembler)

    The development follows the Python source function by function:
    [_sanitizeline], the regular expression of [parseline.code_parse] and
    its three lookup tables, [parseline.address_parse],
    [parseline.subclass], [parseline.__init__], [symboltable.inittable],
    [symboltable.resolve] and the loop of [main].

    Conventions.
    - A Python [str] is a [string]; a character is a code point below 256.
    - A Python [int] is a [Z]; [None] is the [None] of an [option].
    - A [dict] is a [gmap string string].
    - A call that can raise returns a [result]; the exception is a value
      of [exn].
    - The symbol table instance is mutable in Python.  Functions that touch
      it take the instance and return the updated one.
    - What the interpreter and the file system decide, the limit of
      [int()] on the number of digits and how the writes of the log file,
      of the report and of the output file end, is a [platform].  The definitions and
      the theorems are for any platform; the examples run on
      [default_platform]. *)

From Stdlib Require Import ZArith String Ascii List Bool Lia DecimalString.
From stdpp Require Import base option list gmap strings.

Open Scope string_scope.

(** ** Exceptions and results *)

Inductive exn : Type :=
| IndexError                         (* string index out of range *)
| KeyError (key : string)            (* dict lookup of a missing key *)
| AttributeError                     (* [.group] on a failed match *)
| TypeError (msg : string)           (* bad call *)
| OSError                            (* a file cannot be written *)
| UnicodeEncodeError                 (* a text cannot be encoded *)
| ParseError (line : string) (line_loc : option Z) (itype : string).

Inductive result (A : Type) : Type :=
| OK (a : A)
| Raise (e : exn).
Arguments OK {A} a.
Arguments Raise {A} e.

Definition bind {A B} (r : result A) (k : A -> result B) : result B :=
  match r with
  | OK a => k a
  | Raise e => Raise e
  end.

Notation "'let*' x ':=' r 'in' k" := (bind r (fun x => k))
  (at level 10, x name, r at level 100, k at level 200).

(** ** Strings *)

(** [s.startswith(p)], returning the text after the prefix. *)
Fixpoint strip_prefix (p s : string) : option string :=
  match p with
  | EmptyString => Some s
  | String a p' =>
      match s with
      | EmptyString => None
      | String b s' => if Ascii.eqb a b then strip_prefix p' s' else None
      end
  end.

(** [s[0]] *)
Definition first_char (s : string) : result ascii :=
  match s with
  | EmptyString => Raise IndexError
  | String c _ => OK c
  end.

(** [s[-1]] *)
Fixpoint last_char (s : string) : result ascii :=
  match s with
  | EmptyString => Raise IndexError
  | String c EmptyString => OK c
  | String _ s' => last_char s'
  end.

(** [s[1:]] *)
Definition slice_from_1 (s : string) : string :=
  match s with
  | EmptyString => EmptyString
  | String _ s' => s'
  end.

(** [s[1:-1]] *)
Definition slice_1_m1 (s : string) : string :=
  substring 1 (String.length s - 2) s.

(** [c.isspace()] on code points below 256: TAB..CR, FS..US, space,
    NEL and the no-break space.  The class [\s] of a [str] pattern is this
    same set. *)
Definition py_isspace (c : ascii) : bool :=
  let n := nat_of_ascii c in
  ((9 <=? n)%nat && (n <=? 13)%nat) || ((28 <=? n)%nat && (n <=? 32)%nat)
  || (n =? 133)%nat || (n =? 160)%nat.

(** [re.sub(r'\s', '', s)] *)
Fixpoint remove_spaces (s : string) : string :=
  match s with
  | EmptyString => EmptyString
  | String c s' =>
      if py_isspace c then remove_spaces s' else String c (remove_spaces s')
  end.

(** [re.split(r'//', s)[0]]: the text before the first [//]. *)
Fixpoint before_comment (s : string) : string :=
  match s with
  | EmptyString => EmptyString
  | String c s' =>
      match strip_prefix "//" s with
      | Some _ => EmptyString
      | None => String c (before_comment s')
      end
  end.

(** [_sanitizeline] *)
Definition _sanitizeline (line : string) : string :=
  remove_spaces (before_comment line).

(** ** [format(n, '016b')] *)

Fixpoint bin_pos (p : positive) : string :=
  match p with
  | xH => "1"
  | xO p' => bin_pos p' +:+ "0"
  | xI p' => bin_pos p' +:+ "1"
  end.

Fixpoint zeros (n : nat) : string :=
  match n with
  | O => EmptyString
  | S n' => String "0" (zeros n')
  end.

(** Left padding with ['0'] up to [width]; longer text is left as it is. *)
Definition zfill (width : nat) (s : string) : string :=
  zeros (width - String.length s) +:+ s.

(** The fill character [0] pads after the sign. *)
Definition format_016b (n : Z) : string :=
  match n with
  | Z0 => zfill 16 "0"
  | Zpos p => zfill 16 (bin_pos p)
  | Zneg p => "-" +:+ zfill 15 (bin_pos p)
  end.

(** The number a string of binary digits denotes, first digit most
    significant. *)
Fixpoint bin_value_from (acc : Z) (s : string) : Z :=
  match s with
  | EmptyString => acc
  | String c s' =>
      bin_value_from (2 * acc + (if Ascii.eqb c "1" then 1 else 0))%Z s'
  end.

Definition bin_value (s : string) : Z := bin_value_from 0 s.

(** ** [int(s)] *)

Definition is_digit (c : ascii) : bool :=
  let n := nat_of_ascii c in (48 <=? n)%nat && (n <=? 57)%nat.

Definition digit_value (c : ascii) : Z := Z.of_nat (nat_of_ascii c - 48).

Fixpoint lstrip (s : string) : string :=
  match s with
  | EmptyString => EmptyString
  | String c s' => if py_isspace c then lstrip s' else s
  end.

Fixpoint rstrip (s : string) : string :=
  match s with
  | EmptyString => EmptyString
  | String c s' =>
      match rstrip s' with
      | EmptyString =>
          if py_isspace c then EmptyString else String c EmptyString
      | r => String c r
      end
  end.

(** [s.strip()] *)
Definition py_strip (s : string) : string := rstrip (lstrip s).

(** Decimal digits, single underscores allowed between two digits. *)
Fixpoint digits_value (acc : Z) (after_digit : bool) (s : string) : option Z :=
  match s with
  | EmptyString => if after_digit then Some acc else None
  | String c s' =>
      if is_digit c then digits_value (10 * acc + digit_value c)%Z true s'
      else if Ascii.eqb c "_" && after_digit then digits_value acc false s'
      else None
  end.

(** The white space [int()] skips before and after the number: TAB..CR
    and the space, and above 127 the characters [isspace()] accepts, NEL
    and the no-break space.  FS..US are white space for [isspace()] but
    not for [int()]. *)
Definition int_isspace (c : ascii) : bool :=
  let n := nat_of_ascii c in
  ((9 <=? n)%nat && (n <=? 13)%nat) || (n =? 32)%nat
  || (n =? 133)%nat || (n =? 160)%nat.

Fixpoint int_lstrip (s : string) : string :=
  match s with
  | EmptyString => EmptyString
  | String c s' => if int_isspace c then int_lstrip s' else s
  end.

Fixpoint int_rstrip (s : string) : string :=
  match s with
  | EmptyString => EmptyString
  | String c s' =>
      match int_rstrip s' with
      | EmptyString =>
          if int_isspace c then EmptyString else String c EmptyString
      | r => String c r
      end
  end.

(** The number of digits of the numeric part; underscores do not count. *)
Fixpoint digit_count (s : string) : Z :=
  match s with
  | EmptyString => 0
  | String c s' => ((if is_digit c then 1 else 0) + digit_count s')%Z
  end.

(** ** The interpreter and the file system

    What the source leaves to its surroundings.  A write ends well
    ([None]) or in an exception: [OSError] when the file cannot be opened
    or written, [UnicodeEncodeError] when the text cannot be encoded.
    - [int_max_str_digits]: the limit of the interpreter on the number of
      digits [int()] converts ([sys.get_int_max_str_digits()]); 0 is no
      limit, as in interpreters that have none.
    - [log_write line line_loc path itype]: the write of
      [ParseError.printlog] to its log file.
    - [report_write line line_loc]: the [print] to standard output in the
      handler of [main], for the [line] and [line_loc] of the exception.
    - [hack_write lines]: the write of the output file at the end of
      [main]. *)
Inductive write_error : Type := os_error | encode_error.

Definition write_exn (e : write_error) : exn :=
  match e with
  | os_error => OSError
  | encode_error => UnicodeEncodeError
  end.

Record platform : Type := {
  int_max_str_digits : Z;
  log_write : string -> option Z -> string -> string -> option write_error;
  report_write : string -> option Z -> option write_error;
  hack_write : list string -> option write_error
}.

(** The default limit of 4300 digits and writes that all end well. *)
Definition default_platform : platform :=
  {| int_max_str_digits := 4300;
     log_write := fun _ _ _ _ => None;
     report_write := fun _ _ => None;
     hack_write := fun _ => None |}.

(** What a write returns. *)
Definition written (w : option write_error) : result unit :=
  match w with
  | None => OK tt
  | Some e => Raise (write_exn e)
  end.

Section Assembler.

Variable py : platform.

(** The limit applies to numbers of more than 640 digits. *)
Definition too_many_digits (r : string) : bool :=
  let d := digit_count r in
  (640 <? d)%Z && (0 <? int_max_str_digits py)%Z
  && (int_max_str_digits py <? d)%Z.

(** The digits after the sign. *)
Definition int_digits (r : string) : option Z :=
  match digits_value 0 false r with
  | Some v => if too_many_digits r then None else Some v
  | None => None
  end.

(** [int(s)]; [None] stands for [ValueError], the only exception the
    caller handles. *)
Definition py_int (s : string) : option Z :=
  match int_rstrip (int_lstrip s) with
  | String "+" r => int_digits r
  | String "-" r => Z.opp <$> int_digits r
  | r => int_digits r
  end.

(** ** Regular expressions

    The fragment of [re] the assembler uses: literal text, ordered
    alternation, concatenation, the greedy [?] and numbered groups.
    [matches] lists every way the pattern matches at the start of the
    text, in the order a backtracking matcher tries them; each entry has
    the matched text, the rest of the input and the captured groups. *)

Inductive regex : Type :=
| Lit (s : string)
| Alt (r1 r2 : regex)
| Seq (r1 r2 : regex)
| Opt (r : regex)
| Group (n : nat) (r : regex).

Fixpoint matches (r : regex) (s : string) (g : gmap nat string)
  : list (string * string * gmap nat string) :=
  match r with
  | Lit l =>
      match strip_prefix l s with
      | Some s' => [(l, s', g)]
      | None => []
      end
  | Alt r1 r2 => (matches r1 s g ++ matches r2 s g)%list
  | Seq r1 r2 =>
      flat_map (fun m1 => map (fun m2 => (m1.1.1 +:+ m2.1.1, m2.1.2, m2.2))
                            (matches r2 m1.1.2 m1.2))
               (matches r1 s g)
  | Opt r1 => (matches r1 s g ++ [(EmptyString, s, g)])%list
  | Group n r1 =>
      map (fun m => (m.1.1, m.1.2, <[n := m.1.1]> m.2)) (matches r1 s g)
  end.

(** [re.match(r, s)]: the first way to match, or [None]. *)
Definition re_match (r : regex) (s : string) : option (gmap nat string) :=
  snd <$> head (matches r s ∅).

(** [m.group(n)]; a group that took no part gives [None]. *)
Definition group (m : gmap nat string) (n : nat) : option string := m !! n.

(** [r1|r2|...|rn] *)
Fixpoint alt (r : regex) (rs : list regex) : regex :=
  match rs with
  | [] => r
  | r' :: rs' => Alt r (alt r' rs')
  end.

(** [str(x)] for [x] a string or [None]. *)
Definition py_str (x : option string) : string := default "None" x.

(** Truth value of a string or [None]. *)
Definition truthy (x : option string) : bool :=
  match x with
  | Some (String _ _) => true
  | _ => false
  end.

(** [d[k]] *)
Definition dict_get (d : gmap string string) (k : string) : result string :=
  match d !! k with
  | Some v => OK v
  | None => Raise (KeyError k)
  end.

(** ** [parseline.code_parse] *)

Definition _re_comp : regex :=
  Group 3
    (alt (Lit "D|A")
         [Lit "D&A"; Lit "A-D"; Lit "D-A"; Lit "D+A"; Lit "A-1"; Lit "D-1";
          Lit "A+1"; Lit "D+1";
          Lit "D|M"; Lit "D&M"; Lit "M-D"; Lit "D-M"; Lit "D+M"; Lit "M-1";
          Lit "M+1"; Lit "-M"; Lit "!M"; Lit "M";
          Lit "-A"; Lit "-D"; Lit "!A"; Lit "!D"; Lit "A"; Lit "D"; Lit "-1";
          Lit "1"; Opt (Lit "0")]).

Definition _re_dest : regex :=
  Opt (Group 1
         (Seq (Group 2 (alt (Lit "AMD")
                            [Lit "AD"; Lit "AM"; Lit "MD"; Lit "A"; Lit "M";
                             Lit "D"]))
              (Lit "="))).

Definition _re_jmp : regex :=
  Opt (Group 4
         (Seq (Lit ";")
              (Group 5 (alt (Lit "JGT")
                            [Lit "JEQ"; Lit "JGE"; Lit "JLT"; Lit "JNE";
                             Lit "JLE"; Lit "JMP"])))).

(** ['{0}{1}{2}'.format(_re_dest, _re_comp, _re_jmp)] *)
Definition _re_line : regex := Seq (Seq _re_dest _re_comp) _re_jmp.

Definition comp_table : gmap string string :=
  list_to_map
    [("0", "1110101010"); ("1", "1110111111"); ("-1", "1110111010");
     ("D", "1110001100"); ("A", "1110110000"); ("!D", "1110001101");
     ("!A", "1110110001"); ("-D", "1110001111"); ("-A", "1110110011");
     ("D+1", "1110011111"); ("A+1", "1110110111"); ("D-1", "1110001110");
     ("A-1", "1110110010"); ("D+A", "1110000010"); ("D-A", "1110010011");
     ("A-D", "1110000111"); ("D&A", "1110000000"); ("D|A", "1110010101");
     ("M", "1111110000"); ("!M", "1111110001"); ("-M", "1111110011");
     ("M+1", "1111110111"); ("M-1", "1111110010"); ("D+M", "1111000010");
     ("D-M", "1111010011"); ("M-D", "1111000111"); ("D&M", "1111000000");
     ("D|M", "1111010101")].

Definition dest_table : gmap string string :=
  list_to_map
    [("None", "000"); ("M", "001"); ("D", "010"); ("MD", "011");
     ("A", "100"); ("AM", "101"); ("AD", "110"); ("AMD", "111")].

Definition jmp_table : gmap string string :=
  list_to_map
    [("None", "000"); ("JGT", "001"); ("JEQ", "010"); ("JGE", "011");
     ("JLT", "100"); ("JNE", "101"); ("JLE", "110"); ("JMP", "111")].

Definition code_parse (line : string)
  : result (string * option string * string) :=
  match re_match _re_line line with
  | None => Raise AttributeError
  | Some grouped_c =>
      let* dest := dict_get dest_table (py_str (group grouped_c 2)) in
      let* comp := (if truthy (group grouped_c 3)
                    then let* c := dict_get comp_table
                                     (py_str (group grouped_c 3)) in
                         OK (Some c)
                    else OK None) in
      let* jmp := dict_get jmp_table (py_str (group grouped_c 5)) in
      OK (dest, comp, jmp)
  end.

(** ** [ParseError]

    [__init__(self, line, line_loc, path='./log.txt', itype='Unknown')].
    The call is given the two positional arguments and a list of keyword
    arguments.  Python rejects a keyword that names no parameter, or one
    already bound by position, with a [TypeError] before the body runs;
    the text of the message is the one of interpreters before 3.10, later
    ones put the name of the class in front.  The body writes the log
    file through [printlog]; the instruction kind it logs is kept in the
    exception. *)

(** [ParseError.printlog]: the log file at [path] is opened for writing
    and one line is printed to it. *)
Definition printlog (line : string) (line_loc : option Z)
    (path itype : string) : result unit :=
  written (log_write py line line_loc path itype).

Definition keyword (name : string) (kwargs : list (string * string))
  : option string :=
  snd <$> List.find (fun kw => String.eqb kw.1 name) kwargs.

Definition new_ParseError (line : string) (line_loc : option Z)
    (kwargs : list (string * string)) : result exn :=
  match List.find (fun kw => negb (bool_decide (kw.1 ∈ ["path"; "itype"])))
                  kwargs with
  | Some kw =>
      Raise (TypeError ("__init__() got an unexpected keyword argument '"
                        +:+ kw.1 +:+ "'"))
  | None =>
      let path := default "./log.txt" (keyword "path" kwargs) in
      let itype := default "Unknown" (keyword "itype" kwargs) in
      let* _ := printlog line line_loc path itype in
      OK (ParseError line line_loc itype)
  end.

(** [raise e] where evaluating [e] may itself raise. *)
Definition raise_ {A} (e : result exn) : result A :=
  match e with
  | OK e' => Raise e'
  | Raise e' => Raise e'
  end.

(** ** [symboltable] *)

Record symboltable : Type := mk_symboltable {
  lines : list string;
  table : gmap string string;
  used : Z
}.

(** [symboltable.resolve].  The [KeyError] of the lookup is handled inside
    the method; the value returned for a new label is the one just
    stored. *)
Definition resolve (label : string) (self : symboltable)
  : string * symboltable :=
  match table self !! label with
  | Some binary => (binary, self)
  | None =>
      let used' := (used self + 1)%Z in
      let table' := <[label := format_016b used']> (table self) in
      (format_016b used',
       {| lines := lines self; table := table'; used := used' |})
  end.

(** [symboltable.__getitem__] *)
Definition __getitem__ (self : symboltable) (i : string) : result string :=
  dict_get (table self) i.

(** [symboltable._sanitizeasm] *)
Fixpoint _sanitizeasm (raw : list string) : list string :=
  match raw with
  | [] => []
  | line :: rest =>
      let sane_line := _sanitizeline line in
      if truthy (Some sane_line) then sane_line :: _sanitizeasm rest
      else _sanitizeasm rest
  end.

(** [line[0] == '(' and line[-1] == ')'] *)
Definition is_label (line : string) : result bool :=
  let* c0 := first_char line in
  if Ascii.eqb c0 "(" then
    let* c1 := last_char line in OK (Ascii.eqb c1 ")")
  else OK false.

(** [str(i)] for an [int]. *)
Definition str_int (i : Z) : string := NilZero.string_of_int (Z.to_int i).

(** The table before the scan: [R0]..[R15] and the seven reserved names. *)
Definition predefined : gmap string string :=
  let table :=
    foldl (fun t i => <["R" +:+ str_int i := format_016b i]> t) ∅
          (Z.of_nat <$> seq 0 16) in
  let table := <["SP" := format_016b 0]> table in
  let table := <["LCL" := format_016b 1]> table in
  let table := <["ARG" := format_016b 2]> table in
  let table := <["THIS" := format_016b 3]> table in
  let table := <["THAT" := format_016b 4]> table in
  let table := <["SCREEN" := format_016b 16384]> table in
  <["KBD" := format_016b 24576]> table.

(** The first loop of [inittable], from line number [i] on, on the state
    [(table, c_idx, c_lines)]. *)
Fixpoint scan (i : nat) (ls : list string)
    (st : gmap string string * Z * list nat)
  : result (gmap string string * Z * list nat) :=
  match ls with
  | [] => OK st
  | line :: rest =>
      let* lbl := is_label line in
      if lbl : bool then
        scan (S i) rest
             (<[slice_1_m1 line := format_016b st.1.2]> st.1.1, st.1.2, st.2)
      else
        scan (S i) rest (st.1.1, (st.1.2 + 1)%Z, (st.2 ++ [i])%list)
  end.

(** The second loop of [inittable]: [lines[c_line]] for each kept index. *)
Fixpoint collect (ls : list string) (c_lines : list nat)
  : result (list string) :=
  match c_lines with
  | [] => OK []
  | c_line :: rest =>
      match ls !! c_line with
      | None => Raise IndexError
      | Some l => let* c_list := collect ls rest in OK (l :: c_list)
      end
  end.

(** [symboltable.inittable].  The method sets [self.used] and
    [self.lines] and returns the table, which [__init__] stores. *)
Definition inittable (ls : list string) : result symboltable :=
  let* st := scan 0 ls (predefined, 0%Z, []) in
  let* c_list := collect ls st.2 in
  OK {| lines := c_list; table := st.1.1; used := 15 |}.

(** [symboltable.__init__] *)
Definition new_symboltable (raw : list string) : result symboltable :=
  inittable (_sanitizeasm raw).

(** A sequence of [resolve] calls on one instance. *)
Definition resolve_all (labels : list string) (self : symboltable)
  : symboltable :=
  foldl (fun t label => (resolve label t).2) self labels.

(** ** [parseline] *)

Inductive itype : Type := a_type | c_type.

Record parseline : Type := mk_parseline {
  line : string;
  line_loc : option Z;
  type : option itype;
  binary : string
}.

(** [parseline.address_parse]; [self_line_loc] is [self.line_loc]. *)
Definition address_parse (self_line_loc : option Z) (operand : string)
    (loc : option Z) (symbolics : option symboltable)
  : result string * option symboltable :=
  match py_int operand with
  | Some n => (OK (format_016b n), symbolics)
  | None =>
      match symbolics with
      | Some t =>
          let r := resolve operand t in (OK r.1, Some r.2)
      | None =>
          (raise_ (new_ParseError operand self_line_loc [("type", "a-type")]),
           None)
      end
  end.

(** [parseline.subclass] *)
Definition subclass (self_line_loc : option Z) (ln : string)
    (loc : option Z) (symbolics : option symboltable)
  : result (option itype * string) * option symboltable :=
  match code_parse ln with
  | Raise e => (Raise e, symbolics)
  | OK (dest, comp, jmp) =>
      match first_char ln with
      | Raise e => (Raise e, symbolics)
      | OK c0 =>
          if Ascii.eqb c0 "@" then
            let r := address_parse self_line_loc (slice_from_1 ln) loc
                                   symbolics in
            (let* b := r.1 in OK (Some a_type, b), r.2)
          else if truthy comp then
            (OK (Some c_type, py_str comp +:+ dest +:+ jmp), symbolics)
          else
            (let* lbl := is_label ln in
             if lbl : bool then OK (None, "")
             else if String.eqb ln "" then OK (None, "")
             else raise_ (new_ParseError ln loc []),
             symbolics)
      end
  end.

(** [parseline.__init__] *)
Definition new_parseline (ln : string) (loc : option Z)
    (symbolics : option symboltable)
  : result parseline * option symboltable :=
  let self_line := _sanitizeline ln in
  let self_line_loc := loc in
  let r := subclass self_line_loc ln loc symbolics in
  (let* tb := r.1 in
   OK {| line := self_line; line_loc := self_line_loc;
         type := tb.1; binary := tb.2 |},
   r.2).

(** ** [main]

    The loop over [symbolics.lines].  A [ParseError] is reported on
    standard output and the line is skipped; any other exception ends the
    run, as does one of the report itself. *)
Fixpoint main_loop (ls : list string) (loc : Z) (parsed : list parseline)
    (symbolics : symboltable) : result (list parseline * symboltable) :=
  match ls with
  | [] => OK (parsed, symbolics)
  | ln :: rest =>
      let loc := (loc + 1)%Z in
      let r := new_parseline ln (Some loc) (Some symbolics) in
      let symbolics := default symbolics r.2 in
      match r.1 with
      | OK p => main_loop rest loc (parsed ++ [p])%list symbolics
      | Raise (ParseError err_line err_line_loc _) =>
          let* _ := written (report_write py err_line err_line_loc) in
          main_loop rest loc parsed symbolics
      | Raise e => Raise e
      end
  end.

(** [main] from the lines read, [asm], on: the lines written to the
    output file, with the instances and the table returned. *)
Definition main (asm : list string)
  : result (list string * list parseline * symboltable) :=
  let* symbolics := new_symboltable (py_strip <$> asm) in
  let* r := main_loop (lines symbolics) 0 [] symbolics in
  let* _ := written (hack_write py (binary <$> r.1)) in
  OK (binary <$> r.1, r.1, r.2).

(** The line feed. *)
Definition LF : ascii := "010"%char.

(** [re.sub(r'(asm)$', 'hack', s)], the name of the output file when
    [main] is given no output directory.  [$] matches at the end of the
    text and before a line feed that ends it, so the scan replaces [asm]
    where the rest of the text is [asm] or [asm] and a line feed. *)
Definition asm_LF : string :=
  String "a" (String "s" (String "m" (String LF ""))).

Definition hack_LF : string :=
  String "h" (String "a" (String "c" (String "k" (String LF "")))).

Fixpoint hackfile (s : string) : string :=
  if String.eqb s "asm" then "hack"
  else if String.eqb s asm_LF then hack_LF
  else match s with
       | EmptyString => EmptyString
       | String c s' => String c (hackfile s')
       end.

(** ** Vocabulary of the statements *)

(** The texts a pattern can match, and the texts group [n] can capture. *)
Fixpoint texts (r : regex) : list string :=
  match r with
  | Lit l => [l]
  | Alt a b => (texts a ++ texts b)%list
  | Seq a b => flat_map (fun x => map (fun y => x +:+ y) (texts b)) (texts a)
  | Opt a => (texts a ++ [""])%list
  | Group _ a => texts a
  end.

Fixpoint group_texts (n : nat) (r : regex) : list string :=
  match r with
  | Lit _ => []
  | Alt a b => (group_texts n a ++ group_texts n b)%list
  | Seq a b => (group_texts n a ++ group_texts n b)%list
  | Opt a => group_texts n a
  | Group k a => ((if Nat.eqb k n then texts a else []) ++ group_texts n a)%list
  end.

(** Patterns that match at the start of every text. *)
Fixpoint always (r : regex) : bool :=
  match r with
  | Lit l => String.eqb l ""
  | Alt a b => always a || always b
  | Seq a b => always a && always b
  | Opt _ => true
  | Group _ a => always a
  end.

(** Texts made of the digits [0] and [1]. *)
Fixpoint is_binary (s : string) : bool :=
  match s with
  | EmptyString => true
  | String c s' => (Ascii.eqb c "0" || Ascii.eqb c "1") && is_binary s'
  end.

(** The mnemonics of the grammar [[dest=]comp[;jump]]. *)
Definition dest_symbols : list string :=
  ["M"; "D"; "MD"; "A"; "AM"; "AD"; "AMD"].

Definition jump_symbols : list string :=
  ["JGT"; "JEQ"; "JGE"; "JLT"; "JNE"; "JLE"; "JMP"].

(** The text of the compute instruction with the given parts. *)
Definition c_instruction (dest : option string) (comp : string)
    (jump : option string) : string :=
  match dest with Some d => d +:+ "=" | None => "" end
  +:+ comp
  +:+ match jump with Some j => ";" +:+ j | None => "" end.

(** A line with the shape of a label declaration. *)
Definition label_shaped (l : string) : bool :=
  match is_label l with
  | OK b => b
  | Raise _ => false
  end.

(** The lines of a source that are not label declarations. *)
Definition instructions (ls : list string) : list string :=
  filter (fun l => label_shaped l = false) ls.

(** The line numbers, counted from [i], of the lines that are not label
    declarations. *)
Fixpoint kept_indices (i : nat) (ls : list string) : list nat :=
  match ls with
  | [] => []
  | l :: rest =>
      if label_shaped l then kept_indices (S i) rest
      else i :: kept_indices (S i) rest
  end.

(** The table the first loop of [inittable] builds from [tb] when it has
    counted [c] instructions so far. *)
Fixpoint scan_table (ls : list string) (tb : gmap string string) (c : Z)
  : gmap string string :=
  match ls with
  | [] => tb
  | l :: rest =>
      if label_shaped l
      then scan_table rest (<[slice_1_m1 l := format_016b c]> tb) c
      else scan_table rest tb (c + 1)%Z
  end.

(** The number of names [t] holds that [t0] does not. *)
Definition added (t0 t : symboltable) : nat :=
  size (dom (table t) ∖ dom (table t0)).

(** The names [t] holds and [t0] does not have addresses above the
    counter of [t0] and up to the counter of [t], one name per address. *)
Definition variables_distinct (t0 t : symboltable) : Prop :=
  (0 <= used t0 <= used t)%Z
  /\ forall n v,
       table t0 !! n = None -> table t !! n = Some v ->
       exists k, (used t0 < k <= used t)%Z /\ v = format_016b k
                 /\ forall n', table t0 !! n' = None ->
                               table t !! n' = Some v -> n' = n.

(** A supply of distinct names: [v], [v0], [v00], ... *)
Definition fresh_name (k : nat) : string := String "v" (zeros k).

(** The texts [format(k, '016b')] gives for an address [k]. *)
Definition binary_address (v : string) : Prop :=
  exists k, (0 <= k)%Z /\ v = format_016b k.

(** A table whose counter is not negative and whose values are binary
    addresses. *)
Definition table_ok (t : symboltable) : Prop :=
  (0 <= used t)%Z
  /\ forall n v, table t !! n = Some v -> binary_address v.

(** The matches of the alternation of the literals [ls], in order. *)
Definition lit_matches (ls : list string) (s : string) (g : gmap nat string)
  : list (string * string * gmap nat string) :=
  flat_map (fun l => matches (Lit l) s g) ls.

(** The alternatives of the computation group in the order of the
    pattern; the last one, [0?], is [0] and then the empty text. *)
Definition comp_alternatives : list string :=
  ["D|A"; "D&A"; "A-D"; "D-A"; "D+A"; "A-1"; "D-1"; "A+1"; "D+1";
   "D|M"; "D&M"; "M-D"; "D-M"; "D+M"; "M-1"; "M+1"; "-M"; "!M"; "M";
   "-A"; "-D"; "!A"; "!D"; "A"; "D"; "-1"; "1"; "0"; ""].

(** No text of the list starts a text that comes after it. *)
Fixpoint longest_first (ls : list string) : bool :=
  match ls with
  | [] => true
  | t :: post =>
      forallb (fun k => match strip_prefix t k with
                        | Some _ => false
                        | None => true
                        end) post
      && longest_first post
  end.

(** A line of pass 2 is encoded when it starts with [@] or when the
    expression finds a computation in it: the first two tests of
    [subclass]. *)
Definition parses (l : string) : bool :=
  match code_parse l, first_char l with
  | OK (_, comp, _), OK c0 => Ascii.eqb c0 "@" || truthy comp
  | _, _ => false
  end.

(** The name an address instruction hands to [resolve]: its operand, when
    [int()] rejects it. *)
Definition resolved_name (l : string) : option string :=
  match l with
  | String c0 operand =>
      if Ascii.eqb c0 "@" then
        match py_int operand with
        | Some _ => None
        | None => Some operand
        end
      else None
  | EmptyString => None
  end.

Definition resolved_names (ls : list string) : list string :=
  omap resolved_name ls.

(** The call of [parseline] for line [i], counted from 0, of the lines of
    pass 2 of the table [t0]: the line, its position counted from 1, and
    the table after the names of the lines before it are resolved. *)
Definition pass2_call (t0 : symboltable) (i : nat) (l : string)
  : result parseline :=
  (new_parseline l (Some (Z.of_nat i + 1)%Z)
     (Some (resolve_all (resolved_names (take i (lines t0))) t0))).1.

(** The results that are no exception. *)
Definition oks {A} (rs : list (result A)) : list A :=
  omap (fun r => match r with OK a => Some a | Raise _ => None end) rs.

(** The exception of [subclass] for a line that does not parse, when it
    is raised at all: the write of its log file may end in another. *)
Definition raised (l : string) (loc : option Z) : exn :=
  match log_write py l loc "./log.txt" "Unknown" with
  | None => ParseError l loc "Unknown"
  | Some e => write_exn e
  end.

(** The exception that ends the loop of [main] at line [i], counted from
    0, of pass 2, if there is one: the line does not parse and its log
    file or its report cannot be written. *)
Definition line_failure (i : nat) (l : string) : option exn :=
  let loc := Some (Z.of_nat i + 1)%Z in
  if parses l then None
  else match log_write py l loc "./log.txt" "Unknown" with
       | Some e => Some (write_exn e)
       | None => write_exn <$> report_write py l loc
       end.

(** * Properties *)

(** ** The regular expression matcher *)

Lemma matches_text r : forall s g m,
  In m (matches r s g) -> In m.1.1 (texts r).
Proof.
  induction r as [l|a IHa b IHb|a IHa b IHb|a IHa|k a IHa]; intros s g m Hm;
    simpl in *.
  - destruct (strip_prefix l s); simpl in Hm; [|contradiction].
    destruct Hm as [<-|[]]. now left.
  - apply in_app_iff in Hm. apply in_app_iff.
    destruct Hm; [left|right]; eauto.
  - apply in_flat_map in Hm as [m1 [H1 H2]].
    apply in_map_iff in H2 as [m2 [<- H2]]. simpl.
    apply in_flat_map. exists m1.1.1. split; [eauto|].
    apply in_map_iff. exists m2.1.1. eauto.
  - apply in_app_iff in Hm. apply in_app_iff.
    destruct Hm as [Hm|[<-|[]]]; [left; eauto|right; now left].
  - apply in_map_iff in Hm as [m' [<- Hm]]. simpl. eauto.
Qed.

Lemma matches_group n r : forall s g m,
  In m (matches r s g) ->
  m.2 !! n = g !! n \/ exists t, In t (group_texts n r) /\ m.2 !! n = Some t.
Proof.
  induction r as [l|a IHa b IHb|a IHa b IHb|a IHa|k a IHa]; intros s g m Hm;
    simpl in *.
  - destruct (strip_prefix l s); simpl in Hm; [|contradiction].
    destruct Hm as [<-|[]]. now left.
  - apply in_app_iff in Hm.
    destruct Hm as [Hm|Hm]; [apply IHa in Hm|apply IHb in Hm];
      (destruct Hm as [Hm|[t [Ht Hm]]]; [now left|right]);
      exists t; rewrite in_app_iff; auto.
  - apply in_flat_map in Hm as [m1 [H1 H2]].
    apply in_map_iff in H2 as [m2 [<- H2]]. simpl.
    apply IHb in H2. apply IHa in H1.
    destruct H2 as [H2|[t [Ht H2]]].
    + rewrite H2. destruct H1 as [H1|[t [Ht H1]]]; [now left|right].
      exists t. rewrite in_app_iff. auto.
    + right. exists t. rewrite in_app_iff. auto.
  - apply in_app_iff in Hm.
    destruct Hm as [Hm|[<-|[]]]; [eauto|now left].
  - apply in_map_iff in Hm as [m' [<- Hm]]. simpl.
    destruct (Nat.eqb_spec k n) as [->|Hne].
    + right. exists m'.1.1. rewrite lookup_insert_eq. split; [|reflexivity].
      apply in_app_iff. left. eapply matches_text, Hm.
    + rewrite lookup_insert_ne by assumption.
      apply IHa in Hm. destruct Hm as [Hm|[t [Ht Hm]]]; [now left|right].
      exists t. simpl. auto.
Qed.

Lemma matches_always r : forall s g,
  always r = true -> matches r s g <> [].
Proof.
  induction r as [l|a IHa b IHb|a IHa b IHb|a IHa|k a IHa]; intros s g Hr;
    simpl in *.
  - apply String.eqb_eq in Hr. subst l. simpl. discriminate.
  - apply orb_true_iff in Hr. intros Happ.
    apply app_eq_nil in Happ as [H1 H2].
    destruct Hr as [Hr|Hr]; [eapply IHa|eapply IHb]; eauto.
  - apply andb_true_iff in Hr as [Ha Hb].
    specialize (IHa s g Ha).
    destruct (matches a s g) as [|m1 l1]; [congruence|]. simpl.
    specialize (IHb m1.1.2 m1.2 Hb).
    destruct (matches b m1.1.2 m1.2); [congruence|]. simpl. discriminate.
  - intros Happ. apply app_eq_nil in Happ as [_ Habs]. discriminate.
  - specialize (IHa s g Hr).
    destruct (matches a s g); [congruence|]. simpl. discriminate.
Qed.

(** [re.match] with the pattern of [code_parse] never returns [None], and
    what groups 2, 3 and 5 hold comes from the pattern's literals. *)
Lemma re_line_match (ln : string) :
  exists grouped_c,
    re_match _re_line ln = Some grouped_c
    /\ (group grouped_c 2 = None \/
        exists t, In t dest_symbols /\ group grouped_c 2 = Some t)
    /\ (group grouped_c 3 = None \/
        exists t, In t (group_texts 3 _re_line) /\ group grouped_c 3 = Some t)
    /\ (group grouped_c 5 = None \/
        exists t, In t jump_symbols /\ group grouped_c 5 = Some t).
Proof.
  unfold re_match, group.
  pose proof (matches_always _re_line ln ∅ eq_refl) as Hne.
  destruct (matches _re_line ln ∅) as [|m ms] eqn:E; [congruence|].
  assert (Hin : In m (matches _re_line ln ∅)) by (rewrite E; now left).
  exists m.2. split; [reflexivity|].
  pose proof (matches_group 2 _ _ _ _ Hin) as H2.
  pose proof (matches_group 3 _ _ _ _ Hin) as H3.
  pose proof (matches_group 5 _ _ _ _ Hin) as H5.
  rewrite lookup_empty in H2, H3, H5.
  repeat split.
  - destruct H2 as [H2|[t [Ht H2]]]; [now left|right].
    exists t. split; [|assumption].
    simpl in Ht. unfold dest_symbols. simpl. tauto.
  - assumption.
  - destruct H5 as [H5|[t [Ht H5]]]; [now left|right].
    exists t. split; [|assumption].
    simpl in Ht. unfold jump_symbols. simpl. tauto.
Qed.

(** ** [code_parse] *)

Ltac in_cases H :=
  simpl in H;
  repeat (destruct H as [H|H]; [subst|]); try contradiction.

Lemma dest_lookup (g : gmap nat string) :
  (group g 2 = None \/ exists t, In t dest_symbols /\ group g 2 = Some t) ->
  exists dest, dict_get dest_table (py_str (group g 2)) = OK dest
               /\ String.length dest = 3%nat.
Proof.
  intros [->|[t [Ht ->]]]; [|in_cases Ht]; eexists;
    (split; [vm_compute; reflexivity|reflexivity]).
Qed.

Lemma jmp_lookup (g : gmap nat string) :
  (group g 5 = None \/ exists t, In t jump_symbols /\ group g 5 = Some t) ->
  exists jmp, dict_get jmp_table (py_str (group g 5)) = OK jmp
              /\ String.length jmp = 3%nat.
Proof.
  intros [->|[t [Ht ->]]]; [|in_cases Ht]; eexists;
    (split; [vm_compute; reflexivity|reflexivity]).
Qed.

Lemma comp_lookup (g : gmap nat string) :
  (group g 3 = None \/
   exists t, In t (group_texts 3 _re_line) /\ group g 3 = Some t) ->
  truthy (group g 3) = false
  \/ exists t c, group g 3 = Some t /\ truthy (group g 3) = true
                 /\ comp_table !! t = Some c
                 /\ dict_get comp_table (py_str (group g 3)) = OK c
                 /\ String.length c = 10%nat.
Proof.
  intros [->|[t [Ht ->]]]; [now left|].
  in_cases Ht;
    try (left; reflexivity);
    right; do 2 eexists;
    (split; [reflexivity|split; [reflexivity|split; [vm_compute; reflexivity|
      split; [vm_compute; reflexivity|reflexivity]]]]).
Qed.

(** The shape of every result of [code_parse]. *)
Lemma code_parse_OK (ln : string) :
  exists grouped_c dest jmp,
    re_match _re_line ln = Some grouped_c
    /\ String.length dest = 3%nat /\ String.length jmp = 3%nat
    /\ ((truthy (group grouped_c 3) = false
         /\ code_parse ln = OK (dest, None, jmp))
        \/ exists t c,
             group grouped_c 3 = Some t /\ truthy (group grouped_c 3) = true
             /\ comp_table !! t = Some c /\ String.length c = 10%nat
             /\ code_parse ln = OK (dest, Some c, jmp)).
Proof.
  destruct (re_line_match ln) as (g & Hm & H2 & H3 & H5).
  destruct (dest_lookup g H2) as (dest & Hd & Hdl).
  destruct (jmp_lookup g H5) as (jmp & Hj & Hjl).
  exists g, dest, jmp. split; [exact Hm|]. split; [exact Hdl|].
  split; [exact Hjl|].
  unfold code_parse. rewrite Hm, Hd, Hj. cbn [bind].
  destruct (comp_lookup g H3) as [Hf|(t & c & Ht & Htr & Htab & Hc & Hcl)].
  - left. rewrite Hf. cbn [bind]. auto.
  - right. exists t, c. rewrite Htr, Hc. cbn [bind]. auto.
Qed.

(** C8.  [code_parse] returns a triple on every string: the match object
    is never [None] and no table lookup fails.  The computation code is
    [None] exactly when group 3 matched no text, and otherwise it is the
    table entry of the text group 3 matched. *)
Theorem code_parse_total (ln : string) :
  exists grouped_c dest comp jmp,
    re_match _re_line ln = Some grouped_c
    /\ code_parse ln = OK (dest, comp, jmp)
    /\ (comp = None <-> truthy (group grouped_c 3) = false)
    /\ (forall c, comp = Some c <->
                  exists t, group grouped_c 3 = Some t /\ t <> ""
                            /\ comp_table !! t = Some c).
Proof.
  destruct (code_parse_OK ln) as (g & dest & jmp & Hm & _ & _ & H).
  destruct H as [[Hf Hc]|(t & c & Ht & Htr & Htab & _ & Hc)].
  - exists g, dest, None, jmp.
    repeat split; try congruence.
    intros (t & Ht & Hne & _). rewrite Ht in Hf.
    destruct t; [congruence|discriminate].
  - exists g, dest, (Some c), jmp.
    repeat split; try congruence.
    + intros [= <-]. exists t. repeat split; try assumption.
      intros ->. rewrite Ht in Htr. discriminate.
    + intros (t' & Ht' & _ & Htab'). congruence.
Qed.

(** Lines that start with [@] or [(] match no computation. *)
Lemma code_parse_at (s : string) :
  code_parse (String "@" s) = OK ("000", None, "000").
Proof. vm_compute. reflexivity. Qed.

Lemma code_parse_paren (s : string) :
  code_parse (String "(" s) = OK ("000", None, "000").
Proof. vm_compute. reflexivity. Qed.

(** ** [subclass] and [parseline] *)

Lemma last_char_nonempty c s : exists c', last_char (String c s) = OK c'.
Proof.
  revert c. induction s as [|d s IH]; intros c; [now exists c|].
  destruct (IH d) as [c' Hc']. exists c'.
  change (last_char (String c (String d s))) with (last_char (String d s)).
  assumption.
Qed.

Lemma is_label_nonempty c s :
  is_label (String c s) = OK (label_shaped (String c s)).
Proof.
  unfold label_shaped, is_label. cbn [first_char bind].
  destruct (Ascii.eqb c "("); [|reflexivity].
  destruct (last_char_nonempty c s) as [c' ->]. reflexivity.
Qed.

Lemma new_ParseError_positional l loc :
  new_ParseError l loc [] =
  match log_write py l loc "./log.txt" "Unknown" with
  | None => OK (ParseError l loc "Unknown")
  | Some e => Raise (write_exn e)
  end.
Proof.
  unfold new_ParseError, printlog, written.
  cbn [List.find keyword fmap option_fmap option_map default from_option].
  destruct (log_write py l loc "./log.txt" "Unknown"); reflexivity.
Qed.

Lemma raise_ParseError_positional {A} l loc :
  raise_ (A := A) (new_ParseError l loc []) = Raise (raised l loc).
Proof.
  rewrite new_ParseError_positional. unfold raised.
  destruct (log_write py l loc "./log.txt" "Unknown"); reflexivity.
Qed.

Lemma raised_ParseError ln loc l l' k :
  raised ln loc = ParseError l l' k -> l = ln /\ l' = loc /\ k = "Unknown".
Proof.
  unfold raised. destruct (log_write py ln loc "./log.txt" "Unknown")
    as [[]|]; [discriminate|discriminate|].
  now intros [= <- <- <-].
Qed.

Lemma new_ParseError_type l loc :
  new_ParseError l loc [("type", "a-type")] =
  Raise (TypeError "__init__() got an unexpected keyword argument 'type'").
Proof. reflexivity. Qed.

Lemma subclass_address sl operand loc symbolics :
  subclass sl (String "@" operand) loc symbolics =
  (let* b := (address_parse sl operand loc symbolics).1 in
   OK (Some a_type, b),
   (address_parse sl operand loc symbolics).2).
Proof. unfold subclass. rewrite code_parse_at. reflexivity. Qed.

Lemma new_parseline_address operand loc symbolics :
  new_parseline (String "@" operand) loc symbolics =
  (let* b := (address_parse loc operand loc symbolics).1 in
   OK {| line := _sanitizeline (String "@" operand); line_loc := loc;
         type := Some a_type; binary := b |},
   (address_parse loc operand loc symbolics).2).
Proof.
  unfold new_parseline. rewrite subclass_address. cbn [fst snd].
  destruct (address_parse loc operand loc symbolics).1; reflexivity.
Qed.

(** A line with the shape of a label declaration gives no instruction. *)
Lemma subclass_label_shaped sl ln loc symbolics :
  label_shaped ln = true ->
  subclass sl ln loc symbolics = (OK (None, ""), symbolics).
Proof.
  unfold label_shaped, is_label. intros H.
  destruct ln as [|c s]; [discriminate|].
  cbn [first_char bind] in H.
  destruct (Ascii.eqb_spec c "(") as [->|Hc]; [|discriminate].
  unfold subclass. rewrite code_parse_paren.
  cbn [first_char truthy]. change (Ascii.eqb "(" "@") with false. cbn iota.
  unfold is_label. cbn [first_char bind].
  change (Ascii.eqb "(" "(") with true. cbn iota.
  destruct (last_char (String "(" s)) as [c1|e]; [|discriminate].
  cbn [bind] in *. rewrite H. reflexivity.
Qed.

(** [subclass] raises [ParseError] only on a line that is not empty, does
    not start with [@], matches no computation and has not the shape of a
    label declaration. *)
Lemma subclass_ParseError sl ln loc symbolics l l' k :
  (subclass sl ln loc symbolics).1 = Raise (ParseError l l' k) ->
  ln <> "" /\ first_char ln <> OK "@"%char /\ label_shaped ln = false
  /\ (exists dest jmp, code_parse ln = OK (dest, None, jmp))
  /\ l = ln /\ l' = loc /\ k = "Unknown".
Proof.
  unfold subclass.
  destruct (code_parse_OK ln) as (g & dest & jmp & _ & _ & _ & H).
  destruct H as [[_ Hc]|(t & c & _ & _ & _ & Hcl & Hc)]; rewrite Hc;
    (destruct ln as [|c0 s]; [discriminate|]); cbn [first_char];
    (destruct (Ascii.eqb_spec c0 "@") as [->|Hc0];
     [unfold address_parse; cbn [slice_from_1];
      destruct (py_int s); [discriminate|];
      destruct symbolics; [discriminate|];
      rewrite new_ParseError_type; discriminate|]).
  - cbn [truthy fst]. rewrite is_label_nonempty. cbn [bind].
    destruct (label_shaped (String c0 s)); [discriminate|].
    cbn [String.eqb]. rewrite raise_ParseError_positional.
    intros [= H]. apply raised_ParseError in H as (-> & -> & ->).
    repeat split; try congruence. eauto.
  - destruct c as [|a cs]; [discriminate|]. discriminate.
Qed.

Lemma new_parseline_label_shaped ln loc symbolics :
  label_shaped ln = true ->
  new_parseline ln loc symbolics =
  (OK {| line := _sanitizeline ln; line_loc := loc; type := None;
         binary := "" |}, symbolics).
Proof.
  intros H. unfold new_parseline.
  rewrite (subclass_label_shaped loc ln loc symbolics H). reflexivity.
Qed.

(** C1.  A line [[dest=]comp[;jump]] whose computation is a key of the
    computation table, with a destination and a jump of the grammar or
    none, is encoded as a compute instruction: the 10 bits of the
    computation, then the 3 bits of the destination, then the 3 bits of
    the jump, each from its table, an absent part giving [000]. *)
Theorem compute_instruction_encoding dest comp jump cc loc symbolics :
  In dest (None :: map Some dest_symbols) ->
  comp_table !! comp = Some cc ->
  In jump (None :: map Some jump_symbols) ->
  exists dc jc,
    dest_table !! py_str dest = Some dc
    /\ jmp_table !! py_str jump = Some jc
    /\ String.length cc = 10%nat
    /\ String.length dc = 3%nat
    /\ String.length jc = 3%nat
    /\ (dest = None -> dc = "000")
    /\ (jump = None -> jc = "000")
    /\ new_parseline (c_instruction dest comp jump) loc symbolics =
       (OK {| line := c_instruction dest comp jump; line_loc := loc;
              type := Some c_type; binary := cc +:+ dc +:+ jc |},
        symbolics).
Proof.
  intros Hd Hc Hj.
  apply elem_of_list_to_map_2, list_elem_of_In in Hc.
  simpl in Hc.
  repeat (destruct Hc as [Hc|Hc]; [injection Hc as <- <-|]);
    try contradiction;
    in_cases Hd; in_cases Hj;
    (do 2 eexists;
     split; [vm_compute; reflexivity|];
     split; [vm_compute; reflexivity|];
     split; [reflexivity|];
     split; [reflexivity|];
     split; [reflexivity|];
     split; [intros; (reflexivity || discriminate)|];
     split; [intros; (reflexivity || discriminate)|];
     vm_compute; reflexivity).
Qed.

(** C6.  On the empty line [subclass] evaluates [line[0]] before it
    reaches the branch written for the empty line, so the call ends in
    an [IndexError] and gives no [(None, '')]. *)
Theorem empty_line_raises_IndexError loc symbolics :
  new_parseline "" loc symbolics = (Raise IndexError, symbolics).
Proof. reflexivity. Qed.

(** C7.  An address instruction whose operand is no integer, encoded
    without a symbol table, ends in the [TypeError] of the call
    [ParseError(line, self.line_loc, type="a-type")]: the constructor has
    no parameter [type].  No [ParseError] is raised. *)
Theorem symbolic_address_without_table operand loc :
  py_int operand = None ->
  new_parseline (String "@" operand) loc None =
  (Raise (TypeError "__init__() got an unexpected keyword argument 'type'"),
   None).
Proof.
  intros H. rewrite new_parseline_address. unfold address_parse.
  rewrite H, new_ParseError_type. reflexivity.
Qed.

(** C9.  The line [Memory=Address] is no instruction, yet the pattern of
    [code_parse] matches its first letter as the computation [M]; the
    line is encoded as a compute instruction and no error is raised. *)
Theorem spurious_compute_match loc symbolics :
  first_char "Memory=Address" <> OK "@"%char
  /\ (fun m => (m.1.1, m.1.2)) <$> head (matches _re_line "Memory=Address" ∅)
     = Some ("M", "emory=Address")
  /\ code_parse "Memory=Address" = OK ("000", Some "1111110000", "000")
  /\ new_parseline "Memory=Address" loc symbolics =
     (OK {| line := "Memory=Address"; line_loc := loc; type := Some c_type;
            binary := "1111110000000000" |}, symbolics).
Proof.
  split; [discriminate|].
  split; [vm_compute; reflexivity|].
  split; vm_compute; reflexivity.
Qed.

(** C10.  [parseline] keeps the sanitized line in [line] and computes
    [type] and [binary] from the line as given.  On [D = D + 1] the
    binary differs from the binary of the sanitized line [D=D+1], while
    the two [line] attributes are equal. *)
Theorem classification_uses_raw_line :
  (forall raw loc symbolics,
     new_parseline raw loc symbolics =
     (let* tb := (subclass loc raw loc symbolics).1 in
      OK {| line := _sanitizeline raw; line_loc := loc;
            type := tb.1; binary := tb.2 |},
      (subclass loc raw loc symbolics).2))
  /\ _sanitizeline "D = D + 1" = "D=D+1"
  /\ new_parseline "D = D + 1" None None =
     (OK {| line := "D=D+1"; line_loc := None; type := Some c_type;
            binary := "1110001100000000" |}, None)
  /\ new_parseline (_sanitizeline "D = D + 1") None None =
     (OK {| line := "D=D+1"; line_loc := None; type := Some c_type;
            binary := "1110011111010000" |}, None)
  /\ "1110001100000000" <> "1110011111010000".
Proof.
  split; [reflexivity|].
  split; [reflexivity|].
  split; [vm_compute; reflexivity|].
  split; [vm_compute; reflexivity|discriminate].
Qed.

(** ** [format(n, '016b')] *)

Lemma length_append (a b : string) :
  String.length (a +:+ b) = (String.length a + String.length b)%nat.
Proof. induction a as [|c a IH]; simpl; [reflexivity|now rewrite IH]. Qed.

Lemma length_zeros n : String.length (zeros n) = n.
Proof. induction n as [|n IH]; simpl; [reflexivity|now rewrite IH]. Qed.

Lemma length_zfill w s :
  String.length (zfill w s) = Nat.max w (String.length s).
Proof. unfold zfill. rewrite length_append, length_zeros. lia. Qed.

Lemma length_bin_pos p : String.length (bin_pos p) = Pos.size_nat p.
Proof.
  induction p as [p IH|p IH|]; simpl; [| |reflexivity];
    rewrite length_append, IH; simpl; lia.
Qed.

Lemma size_nat_bound p k :
  (Z.pos p < 2 ^ Z.of_nat k)%Z -> (Pos.size_nat p <= k)%nat.
Proof.
  revert k. induction p as [p IH|p IH|]; intros k Hk;
    (destruct k as [|k]; [simpl in Hk; lia|]);
    rewrite Nat2Z.inj_succ, Z.pow_succ_r in Hk by lia; simpl.
  - apply le_n_S, IH. lia.
  - apply le_n_S, IH. lia.
  - lia.
Qed.

Lemma size_nat_lower p k :
  (2 ^ Z.of_nat k <= Z.pos p)%Z -> (k < Pos.size_nat p)%nat.
Proof.
  revert k. induction p as [p IH|p IH|]; intros k Hk;
    (destruct k as [|k]; [simpl; lia|]);
    rewrite Nat2Z.inj_succ, Z.pow_succ_r in Hk by lia; simpl.
  - apply -> Nat.succ_lt_mono. apply IH. lia.
  - apply -> Nat.succ_lt_mono. apply IH. lia.
  - pose proof (Z.pow_pos_nonneg 2 (Z.of_nat k)). lia.
Qed.

(** Below [2^16] the text has 16 characters. *)
Lemma length_format_016b n :
  (0 <= n < 65536)%Z -> String.length (format_016b n) = 16%nat.
Proof.
  intros Hn. destruct n as [|p|p]; [reflexivity| |lia].
  unfold format_016b. rewrite length_zfill, length_bin_pos.
  pose proof (size_nat_bound p 16) as H.
  change (2 ^ Z.of_nat 16)%Z with 65536%Z in H. lia.
Qed.

(** From [2^16] on it has more. *)
Lemma length_format_016b_large n :
  (65536 <= n)%Z -> (16 < String.length (format_016b n))%nat.
Proof.
  intros Hn. destruct n as [|p|p]; [lia| |lia].
  unfold format_016b. rewrite length_zfill, length_bin_pos.
  pose proof (size_nat_lower p 16) as H.
  change (2 ^ Z.of_nat 16)%Z with 65536%Z in H. lia.
Qed.

Lemma bin_value_from_append acc a b :
  bin_value_from acc (a +:+ b) = bin_value_from (bin_value_from acc a) b.
Proof. revert acc. induction a as [|c a IH]; intros acc; simpl; auto. Qed.

Lemma bin_value_from_zeros n s :
  bin_value_from 0 (zeros n +:+ s) = bin_value_from 0 s.
Proof. induction n as [|n IH]; simpl; auto. Qed.

Lemma bin_value_bin_pos p : bin_value (bin_pos p) = Z.pos p.
Proof.
  unfold bin_value.
  induction p as [p IH|p IH|]; simpl; [| |reflexivity];
    rewrite bin_value_from_append, IH; simpl; lia.
Qed.

(** The digits are those of [n], most significant first. *)
Lemma bin_value_format_016b n :
  (0 <= n)%Z -> bin_value (format_016b n) = n.
Proof.
  intros Hn. destruct n as [|p|p]; [reflexivity| |lia].
  unfold format_016b, zfill, bin_value. rewrite bin_value_from_zeros.
  apply bin_value_bin_pos.
Qed.

Lemma format_016b_inj n m :
  (0 <= n)%Z -> (0 <= m)%Z -> format_016b n = format_016b m -> n = m.
Proof.
  intros Hn Hm H.
  rewrite <- (bin_value_format_016b n Hn), <- (bin_value_format_016b m Hm).
  now rewrite H.
Qed.

Lemma is_binary_append a b :
  is_binary (a +:+ b) = is_binary a && is_binary b.
Proof.
  induction a as [|c a IH]; simpl; [reflexivity|].
  rewrite IH. now rewrite andb_assoc.
Qed.

Lemma is_binary_zeros n : is_binary (zeros n) = true.
Proof. induction n; simpl; auto. Qed.

Lemma is_binary_bin_pos p : is_binary (bin_pos p) = true.
Proof.
  induction p as [p IH|p IH|]; simpl; [| |reflexivity];
    rewrite is_binary_append, IH; reflexivity.
Qed.

Lemma is_binary_format_016b n :
  (0 <= n)%Z -> is_binary (format_016b n) = true.
Proof.
  intros Hn. destruct n as [|p|p]; [reflexivity| |lia].
  unfold format_016b, zfill.
  now rewrite is_binary_append, is_binary_zeros, is_binary_bin_pos.
Qed.

(** A negative number: the sign, then the digits of its absolute value,
    padded to 15; 15 digits are enough above [-2^15]. *)
Lemma format_016b_negative n :
  (n < 0)%Z ->
  exists d,
    format_016b n = String "-" d
    /\ is_binary d = true /\ bin_value d = (- n)%Z
    /\ ((-32768 < n)%Z -> String.length d = 15%nat)
    /\ ((n <= -32768)%Z -> (15 < String.length d)%nat).
Proof.
  intros Hn. destruct n as [|p|p]; [lia|lia|].
  exists (zfill 15 (bin_pos p)). split; [reflexivity|].
  split; [unfold zfill;
          now rewrite is_binary_append, is_binary_zeros, is_binary_bin_pos|].
  split; [unfold zfill, bin_value; rewrite bin_value_from_zeros;
          apply bin_value_bin_pos|].
  rewrite length_zfill, length_bin_pos. split; intros H.
  - pose proof (size_nat_bound p 15) as Hs.
    change (2 ^ Z.of_nat 15)%Z with 32768%Z in Hs. lia.
  - pose proof (size_nat_lower p 15) as Hs.
    change (2 ^ Z.of_nat 15)%Z with 32768%Z in Hs. lia.
Qed.

(** ** [address_parse] *)

(** C2 (amended).  For an address instruction [@OPERAND]: when
    [int(OPERAND)] gives [n], the instruction is [format(n, '016b')].  For
    [0 <= n < 65536] this is the 16 binary digits of [n], zero padded,
    most significant first; for [65536 <= n] it is the binary digits of
    [n], more than 16 of them; for [n < 0] it is [-] and then the binary
    digits of [-n] padded to 15, which are 15 digits when [-32768 < n]
    and more when not.  When [int(OPERAND)] fails and a symbol table is
    supplied, the instruction is the text [resolve] returns for the
    operand. *)
Theorem address_instruction_encoding operand loc :
  (forall n symbolics,
     py_int operand = Some n ->
     new_parseline (String "@" operand) loc symbolics =
     (OK {| line := _sanitizeline (String "@" operand); line_loc := loc;
            type := Some a_type; binary := format_016b n |}, symbolics)
     /\ ((0 <= n < 65536)%Z ->
         String.length (format_016b n) = 16%nat
         /\ is_binary (format_016b n) = true
         /\ bin_value (format_016b n) = n)
     /\ ((65536 <= n)%Z ->
         (16 < String.length (format_016b n))%nat
         /\ is_binary (format_016b n) = true
         /\ bin_value (format_016b n) = n)
     /\ ((n < 0)%Z ->
         exists d,
           format_016b n = String "-" d
           /\ is_binary d = true /\ bin_value d = (- n)%Z
           /\ ((-32768 < n)%Z -> String.length d = 15%nat)
           /\ ((n <= -32768)%Z -> (15 < String.length d)%nat)))
  /\ (forall t,
        py_int operand = None ->
        new_parseline (String "@" operand) loc (Some t) =
        (OK {| line := _sanitizeline (String "@" operand); line_loc := loc;
               type := Some a_type; binary := (resolve operand t).1 |},
         Some (resolve operand t).2)).
Proof.
  split.
  - intros n symbolics H. split.
    + rewrite new_parseline_address. unfold address_parse. rewrite H.
      reflexivity.
    + split; [|split].
      * intros Hn. split; [now apply length_format_016b|].
        split; [apply is_binary_format_016b; lia|].
        apply bin_value_format_016b; lia.
      * intros Hn. split; [now apply length_format_016b_large|].
        split; [apply is_binary_format_016b; lia|].
        apply bin_value_format_016b; lia.
      * apply format_016b_negative.
  - intros t H. rewrite new_parseline_address. unfold address_parse.
    rewrite H. reflexivity.
Qed.

(** ** Construction of the symbol table *)

Lemma _sanitizeasm_nonempty raw : Forall (fun l => l <> "") (_sanitizeasm raw).
Proof.
  induction raw as [|l raw IH]; simpl; [constructor|].
  destruct (_sanitizeline l) eqn:E; simpl; [assumption|].
  constructor; [discriminate|assumption].
Qed.

Lemma is_label_OK l : l <> "" -> is_label l = OK (label_shaped l).
Proof. destruct l; [congruence|]. intros _. apply is_label_nonempty. Qed.

Lemma scan_OK ls : forall i tb c cl,
  Forall (fun l => l <> "") ls ->
  scan i ls (tb, c, cl) =
  OK (scan_table ls tb c, (c + Z.of_nat (length (instructions ls)))%Z,
      (cl ++ kept_indices i ls)%list).
Proof.
  induction ls as [|l ls IH]; intros i tb c cl Hne.
  - simpl. rewrite Z.add_0_r, app_nil_r. reflexivity.
  - inversion Hne as [|? ? Hl Hls]; subst.
    cbn [scan]. rewrite (is_label_OK l Hl). cbn [bind fst snd].
    unfold instructions. rewrite filter_cons. cbn [scan_table kept_indices].
    destruct (label_shaped l) eqn:E.
    + rewrite IH by assumption.
      destruct (decide (true = false)); [discriminate|]. reflexivity.
    + rewrite IH by assumption.
      destruct (decide (false = false)); [|congruence].
      rewrite length_cons, <- app_assoc. cbn [app].
      do 3 f_equal. unfold instructions. lia.
Qed.

Lemma collect_kept ls : forall pre,
  collect (pre ++ ls) (kept_indices (length pre) ls) = OK (instructions ls).
Proof.
  induction ls as [|l ls IH]; intros pre; [reflexivity|].
  unfold instructions. rewrite filter_cons. cbn [kept_indices].
  specialize (IH (pre ++ [l])%list).
  rewrite <- app_assoc, length_app in IH. cbn [app length] in IH.
  rewrite Nat.add_1_r in IH.
  destruct (label_shaped l) eqn:E.
  - destruct (decide (true = false)); [discriminate|]. exact IH.
  - destruct (decide (false = false)); [|congruence].
    cbn [collect]. rewrite list_lookup_middle by reflexivity.
    rewrite IH. reflexivity.
Qed.

(** [symboltable(raw)] never raises; its fields are the instruction lines,
    the scanned table and 15. *)
Lemma new_symboltable_OK raw :
  new_symboltable raw =
  OK {| lines := instructions (_sanitizeasm raw);
        table := scan_table (_sanitizeasm raw) predefined 0;
        used := 15 |}.
Proof.
  unfold new_symboltable, inittable.
  rewrite scan_OK by apply _sanitizeasm_nonempty. cbn [bind fst snd app].
  pose proof (collect_kept (_sanitizeasm raw) []) as H.
  cbn [app length] in H. rewrite H. reflexivity.
Qed.

Lemma instructions_app l1 l2 :
  instructions (l1 ++ l2) = (instructions l1 ++ instructions l2)%list.
Proof. apply filter_app. Qed.

Lemma scan_table_app l1 : forall l2 tb c,
  scan_table (l1 ++ l2) tb c =
  scan_table l2 (scan_table l1 tb c)
             (c + Z.of_nat (length (instructions l1)))%Z.
Proof.
  induction l1 as [|l l1 IH]; intros l2 tb c.
  - simpl. now rewrite Z.add_0_r.
  - cbn [app scan_table]. unfold instructions. rewrite filter_cons.
    destruct (label_shaped l) eqn:E.
    + destruct (decide (true = false)); [discriminate|]. apply IH.
    + destruct (decide (false = false)); [|congruence].
      rewrite IH, length_cons. unfold instructions. f_equal. lia.
Qed.

Lemma scan_table_other ls name : forall tb c,
  (forall l, In l ls -> label_shaped l = true -> slice_1_m1 l <> name) ->
  scan_table ls tb c !! name = tb !! name.
Proof.
  induction ls as [|l ls IH]; intros tb c H; [reflexivity|].
  cbn [scan_table]. destruct (label_shaped l) eqn:E.
  - rewrite IH by (intros; apply H; [now right|assumption]).
    apply lookup_insert_ne. apply H; [now left|assumption].
  - apply IH. intros; apply H; [now right|assumption].
Qed.

(** ** [resolve] *)

Lemma resolve_present t name v :
  table t !! name = Some v -> resolve name t = (v, t).
Proof. intros H. unfold resolve. now rewrite H. Qed.

Lemma resolve_absent t name :
  table t !! name = None ->
  resolve name t =
  (format_016b (used t + 1),
   {| lines := lines t;
      table := <[name := format_016b (used t + 1)]> (table t);
      used := (used t + 1)%Z |}).
Proof. intros H. unfold resolve. now rewrite H. Qed.

(** The text returned is the entry of the name afterwards. *)
Lemma resolve_returns_entry t name :
  table (resolve name t).2 !! name = Some (resolve name t).1.
Proof.
  destruct (table t !! name) as [v|] eqn:E.
  - now rewrite (resolve_present _ _ _ E).
  - rewrite (resolve_absent _ _ E). cbn [fst snd table].
    apply lookup_insert_eq.
Qed.

(** An entry is never changed. *)
Lemma resolve_lookup_stable t l name v :
  table t !! name = Some v -> table (resolve l t).2 !! name = Some v.
Proof.
  intros H. destruct (table t !! l) as [w|] eqn:E.
  - now rewrite (resolve_present _ _ _ E).
  - rewrite (resolve_absent _ _ E). cbn [snd table].
    rewrite lookup_insert_ne; [assumption|]. intros ->. congruence.
Qed.

Lemma resolve_all_cons l ls t :
  resolve_all (l :: ls) t = resolve_all ls (resolve l t).2.
Proof. reflexivity. Qed.

Lemma resolve_all_lookup_stable ls : forall t name v,
  table t !! name = Some v -> table (resolve_all ls t) !! name = Some v.
Proof.
  induction ls as [|l ls IH]; intros t name v H; [assumption|].
  rewrite resolve_all_cons. apply IH. now apply resolve_lookup_stable.
Qed.

Lemma resolve_all_lines ls : forall t, lines (resolve_all ls t) = lines t.
Proof.
  induction ls as [|l ls IH]; intros t; [reflexivity|].
  rewrite resolve_all_cons, IH. unfold resolve.
  destruct (table t !! l); reflexivity.
Qed.

Lemma resolve_dom t l :
  dom (table (resolve l t).2) = {[l]} ∪ dom (table t).
Proof.
  destruct (table t !! l) as [w|] eqn:E.
  - rewrite (resolve_present _ _ _ E). cbn [snd].
    apply elem_of_dom_2 in E. symmetry. apply subseteq_union_1_L.
    now apply singleton_subseteq_l.
  - rewrite (resolve_absent _ _ E). cbn [snd table]. apply dom_insert_L.
Qed.

Lemma resolve_all_dom ls : forall t,
  dom (table t) ⊆ dom (table (resolve_all ls t)).
Proof.
  induction ls as [|l ls IH]; intros t; [reflexivity|].
  rewrite resolve_all_cons. etrans; [|apply IH].
  rewrite resolve_dom. set_solver.
Qed.

(** The counter moves with the size of the table. *)
Lemma resolve_used t l :
  (used (resolve l t).2 - Z.of_nat (size (dom (table (resolve l t).2))))%Z
  = (used t - Z.of_nat (size (dom (table t))))%Z.
Proof.
  destruct (table t !! l) as [w|] eqn:E.
  - now rewrite (resolve_present _ _ _ E).
  - rewrite (resolve_absent _ _ E). cbn [snd table used].
    rewrite dom_insert_L, size_union, size_singleton.
    + lia.
    + apply not_elem_of_dom in E. set_solver.
Qed.

Lemma resolve_all_used ls : forall t,
  (used (resolve_all ls t) - Z.of_nat (size (dom (table (resolve_all ls t)))))%Z
  = (used t - Z.of_nat (size (dom (table t))))%Z.
Proof.
  induction ls as [|l ls IH]; intros t; [reflexivity|].
  rewrite resolve_all_cons, IH. apply resolve_used.
Qed.

(** The counter is its first value plus the number of names added. *)
Lemma resolve_all_used_added ls t :
  used (resolve_all ls t) = (used t + Z.of_nat (added t (resolve_all ls t)))%Z.
Proof.
  unfold added. rewrite size_difference by apply resolve_all_dom.
  pose proof (resolve_all_used ls t) as H.
  pose proof (subseteq_size _ _ (resolve_all_dom ls t)) as Hle.
  lia.
Qed.

Lemma resolve_variables_distinct t0 t l :
  variables_distinct t0 t -> variables_distinct t0 (resolve l t).2.
Proof.
  intros [Hu Hv]. destruct (table t !! l) as [w|] eqn:E.
  { rewrite (resolve_present _ _ _ E). now split. }
  rewrite (resolve_absent _ _ E). cbn [snd]. split; cbn [used table]; [lia|].
  assert (Hold : forall n v, table t0 !! n = None -> table t !! n = Some v ->
                             v <> format_016b (used t + 1)).
  { intros n v H0 Hn Heq. destruct (Hv n v H0 Hn) as (k & Hk & -> & _).
    apply format_016b_inj in Heq; lia. }
  intros n v H0 Hn. destruct (decide (n = l)) as [->|Hne].
  - rewrite lookup_insert_eq in Hn. injection Hn as <-.
    exists (used t + 1)%Z. split; [lia|]. split; [reflexivity|].
    intros n' H0' Hn'. destruct (decide (n' = l)) as [->|Hne']; [reflexivity|].
    rewrite lookup_insert_ne in Hn' by congruence.
    exfalso. eapply Hold; eauto.
  - rewrite lookup_insert_ne in Hn by congruence.
    destruct (Hv n v H0 Hn) as (k & Hk & -> & Huniq).
    exists k. split; [lia|]. split; [reflexivity|].
    intros n' H0' Hn'. destruct (decide (n' = l)) as [->|Hne'].
    + rewrite lookup_insert_eq in Hn'. injection Hn' as Heq.
      exfalso. eapply (Hold n); eauto.
    + rewrite lookup_insert_ne in Hn' by congruence. now apply Huniq.
Qed.

Lemma resolve_all_variables_distinct t0 ls : forall t,
  variables_distinct t0 t -> variables_distinct t0 (resolve_all ls t).
Proof.
  induction ls as [|l ls IH]; intros t H; [assumption|].
  rewrite resolve_all_cons. now apply IH, resolve_variables_distinct.
Qed.

Lemma variables_distinct_init t0 :
  (0 <= used t0)%Z -> variables_distinct t0 t0.
Proof. intros H. split; [lia|]. intros n v H0 Hn. congruence. Qed.

(** Resolving names that are new and distinct moves the counter by their
    number and leaves the other names alone. *)
Lemma resolve_all_fresh names : forall t,
  NoDup names ->
  (forall n, n ∈ names -> table t !! n = None) ->
  used (resolve_all names t) = (used t + Z.of_nat (length names))%Z
  /\ forall x, x ∉ names -> table (resolve_all names t) !! x = table t !! x.
Proof.
  induction names as [|n names IH]; intros t Hnd Hnew.
  - split; [simpl; lia|reflexivity].
  - apply NoDup_cons in Hnd as [Hn Hnd].
    assert (E : table t !! n = None) by (apply Hnew; left).
    rewrite resolve_all_cons, (resolve_absent _ _ E). cbn [snd].
    destruct (IH {| lines := lines t;
                    table := <[n := format_016b (used t + 1)]> (table t);
                    used := (used t + 1)%Z |} Hnd) as [IHu IHx].
    + intros m Hm. cbn [table]. rewrite lookup_insert_ne.
      * apply Hnew. now right.
      * intros ->. contradiction.
    + cbn [used table] in *. split; [rewrite IHu, length_cons; lia|].
      intros x Hx. apply not_elem_of_cons in Hx as [Hxn Hx].
      rewrite IHx by assumption. now apply lookup_insert_ne.
Qed.

Lemma fresh_name_inj : Inj (=) (=) fresh_name.
Proof.
  intros k k' H. injection H as H.
  rewrite <- (length_zeros k), <- (length_zeros k'). now rewrite H.
Qed.

Lemma predefined_fresh s : predefined !! String "v" s = None.
Proof.
  rewrite <- (list_to_map_to_list predefined).
  apply not_elem_of_list_to_map_1.
  let keys := eval vm_compute in ((map_to_list predefined).*1) in
  replace ((map_to_list predefined).*1) with keys
    by (vm_compute; reflexivity).
  rewrite !not_elem_of_cons. repeat split; try discriminate.
  apply not_elem_of_nil.
Qed.

(** ** Address instructions with a table *)

(** ** Labels *)

Lemma instructions_label decl post :
  label_shaped decl = true -> instructions (decl :: post) = instructions post.
Proof.
  intros H. unfold instructions. rewrite filter_cons.
  destruct (decide (label_shaped decl = false)); [congruence|reflexivity].
Qed.

(** C3.  A sanitized line is a label declaration when its first character
    is [(] and its last is [)].  The table maps the inner text of the
    declaration to the number of instruction lines before it, which is
    the index, in the instruction sequence kept for pass 2, of the next
    instruction after it; every later [resolve] of the name, and every
    reference [@name] to it, before or after the declaration, gives that
    number.  The declaration meant is the last one of its name, a later
    one overwriting the entry, and a reference is an operand that is no
    integer literal. *)
Theorem label_resolution raw pre decl post :
  _sanitizeasm raw = (pre ++ decl :: post)%list ->
  label_shaped decl = true ->
  (forall l, In l post -> label_shaped l = true ->
             slice_1_m1 l <> slice_1_m1 decl) ->
  exists t,
    new_symboltable raw = OK t
    /\ lines t = (instructions pre ++ instructions post)%list
    /\ lines t !! length (instructions pre) = head (instructions post)
    /\ table t !! slice_1_m1 decl =
       Some (format_016b (Z.of_nat (length (instructions pre))))
    /\ forall labels,
         (resolve (slice_1_m1 decl) (resolve_all labels t)).1 =
         format_016b (Z.of_nat (length (instructions pre)))
         /\ forall loc,
              py_int (slice_1_m1 decl) = None ->
              (new_parseline (String "@" (slice_1_m1 decl)) loc
                             (Some (resolve_all labels t))).1 =
              OK {| line := _sanitizeline (String "@" (slice_1_m1 decl));
                    line_loc := loc; type := Some a_type;
                    binary := format_016b
                                (Z.of_nat (length (instructions pre))) |}.
Proof.
  intros Hraw Hdecl Hpost. rewrite new_symboltable_OK, Hraw.
  set (t := {| lines := instructions (pre ++ decl :: post);
               table := scan_table (pre ++ decl :: post) predefined 0;
               used := 15 |}).
  exists t. split; [reflexivity|].
  assert (Htab : table t !! slice_1_m1 decl =
                 Some (format_016b (Z.of_nat (length (instructions pre))))).
  { unfold t. cbn [table]. rewrite scan_table_app. cbn [scan_table].
    rewrite Hdecl, scan_table_other by assumption.
    rewrite Z.add_0_l. apply lookup_insert_eq. }
  assert (Hlines : lines t = (instructions pre ++ instructions post)%list).
  { unfold t. cbn [lines]. now rewrite instructions_app, instructions_label. }
  split; [exact Hlines|].
  split.
  { rewrite Hlines, lookup_app_r, Nat.sub_diag by reflexivity.
    symmetry. apply head_lookup. }
  split; [exact Htab|].
  intros labels.
  pose proof (resolve_all_lookup_stable labels t _ _ Htab) as Hl.
  split.
  - now rewrite (resolve_present _ _ _ Hl).
  - intros loc Hint. rewrite new_parseline_address. unfold address_parse.
    rewrite Hint. cbn [fst bind]. now rewrite (resolve_present _ _ _ Hl).
Qed.

(** ** Variables *)

Lemma added_resolve_new t0 t name :
  dom (table t0) ⊆ dom (table t) ->
  table t !! name = None ->
  added t0 (resolve name t).2 = S (added t0 t).
Proof.
  intros Hsub E. unfold added.
  assert (Hsub' : dom (table t0) ⊆ dom (table (resolve name t).2)).
  { rewrite resolve_dom. etrans; [exact Hsub|]. apply union_subseteq_r. }
  rewrite !size_difference by assumption.
  rewrite resolve_dom, size_union, size_singleton.
  - pose proof (subseteq_size _ _ Hsub). lia.
  - apply not_elem_of_dom in E. apply disjoint_singleton_l. exact E.
Qed.

(** C4 (amended).  The counter starts at 15.  [resolve] on a name absent
    from the table gives it the address 16 plus the number of names added
    since construction (16 for the first, 17 for the second, and so on),
    stores it, and every later [resolve] of the name returns the same
    text; the text has 16 binary digits as long as the address is below
    65536. *)
Theorem resolve_assigns_next_address raw :
  exists t0,
    new_symboltable raw = OK t0
    /\ used t0 = 15%Z
    /\ forall labels name,
         table (resolve_all labels t0) !! name = None ->
         let t := resolve_all labels t0 in
         let k := (16 + Z.of_nat (added t0 t))%Z in
         (resolve name t).1 = format_016b k
         /\ table (resolve name t).2 = <[name := format_016b k]> (table t)
         /\ used (resolve name t).2 = k
         /\ added t0 (resolve name t).2 = S (added t0 t)
         /\ (forall later,
               (resolve name (resolve_all later (resolve name t).2)).1 =
               format_016b k)
         /\ ((k < 65536)%Z ->
             String.length (format_016b k) = 16%nat
             /\ is_binary (format_016b k) = true
             /\ bin_value (format_016b k) = k).
Proof.
  rewrite new_symboltable_OK. eexists. split; [reflexivity|].
  split; [reflexivity|].
  intros labels name E. cbv zeta.
  set (t0 := {| lines := instructions (_sanitizeasm raw);
                table := scan_table (_sanitizeasm raw) predefined 0;
                used := 15 |}) in *.
  set (t := resolve_all labels t0) in *.
  set (k := (16 + Z.of_nat (added t0 t))%Z).
  assert (Hk : (used t + 1)%Z = k).
  { unfold k, t. rewrite (resolve_all_used_added labels t0).
    change (used t0) with 15%Z. lia. }
  pose proof (added_resolve_new t0 t name (resolve_all_dom labels t0) E)
    as Hadd.
  rewrite (resolve_absent _ _ E) in Hadd |- *. rewrite Hk in Hadd |- *.
  cbn [fst snd table used] in Hadd |- *.
  split; [reflexivity|]. split; [reflexivity|]. split; [reflexivity|].
  split; [exact Hadd|].
  split.
  - intros later.
    erewrite resolve_present; [reflexivity|].
    apply resolve_all_lookup_stable. cbn [table]. apply lookup_insert_eq.
  - intros Hlt. assert (0 <= k < 65536)%Z by (unfold k; lia).
    split; [now apply length_format_016b|].
    split; [apply is_binary_format_016b; lia|].
    apply bin_value_format_016b; lia.
Qed.

Lemma resolve_assigns_next_address_witness :
  exists t0,
    new_symboltable [] = OK t0
    /\ table (resolve_all ["R0"; "i"; "i"] t0) !! "j" = None
    /\ (resolve "i" (resolve_all ["R0"] t0)).1 = "0000000000010000"
    /\ (resolve "j" (resolve_all ["R0"; "i"; "i"] t0)).1 = "0000000000010001"
    /\ String.length (resolve "j" (resolve_all ["R0"; "i"; "i"] t0)).1
       = 16%nat
    /\ (resolve "j" (resolve_all ["j"; "k"; "i"]
                       (resolve "j" (resolve_all ["R0"; "i"; "i"] t0)).2)).1
       = "0000000000010001".
Proof.
  destruct (resolve_assigns_next_address []) as (t0 & H0 & _ & H).
  exists t0. split; [exact H0|].
  rewrite new_symboltable_OK in H0. injection H0 as <-.
  assert (Ej : table (resolve_all ["R0"; "i"; "i"]
                 {| lines := instructions (_sanitizeasm []);
                    table := scan_table (_sanitizeasm []) predefined 0;
                    used := 15 |}) !! "j" = None)
    by (vm_compute; reflexivity).
  assert (Ei : table (resolve_all ["R0"]
                 {| lines := instructions (_sanitizeasm []);
                    table := scan_table (_sanitizeasm []) predefined 0;
                    used := 15 |}) !! "i" = None)
    by (vm_compute; reflexivity).
  split; [exact Ej|].
  destruct (H ["R0"] "i" Ei) as (Hi & _).
  destruct (H ["R0"; "i"; "i"] "j" Ej) as (Hj & _ & _ & _ & Hlater & Hb).
  split; [rewrite Hi; vm_compute; reflexivity|].
  split; [rewrite Hj; vm_compute; reflexivity|].
  split; [rewrite Hj; apply Hb; vm_compute; reflexivity|].
  rewrite (Hlater ["j"; "k"; "i"]). vm_compute. reflexivity.
Defined.

(** C4, as stated, fails once 65520 variables are in the table: the next
    name is given the address 65536, a text of 17 characters. *)
Lemma variable_address_17_characters :
  exists t0,
    new_symboltable [] = OK t0
    /\ let t := resolve_all (fresh_name <$> seq 0 (Z.to_nat 65520)) t0 in
       table t !! "x" = None
       /\ (resolve "x" t).1 = "10000000000000000"
       /\ String.length (resolve "x" t).1 = 17%nat.
Proof.
  rewrite new_symboltable_OK. eexists. split; [reflexivity|]. cbv zeta.
  change (_sanitizeasm []) with (@nil string).
  change (scan_table [] predefined 0) with predefined.
  set (t0 := {| lines := instructions []; table := predefined; used := 15 |}).
  set (names := fresh_name <$> seq 0 (Z.to_nat 65520)).
  destruct (resolve_all_fresh names t0) as [Hu Hx].
  - apply NoDup_fmap_2_strong; [|apply NoDup_seq].
    intros k k' _ _. apply fresh_name_inj.
  - intros n Hn. apply list_elem_of_fmap in Hn as (k & -> & _).
    apply predefined_fresh.
  - assert (E : table (resolve_all names t0) !! "x" = None).
    { rewrite Hx; [vm_compute; reflexivity|].
      intros Hin. apply list_elem_of_fmap in Hin as (k & Hk & _).
      discriminate. }
    assert (Hlen : Z.of_nat (length names) = 65520%Z).
    { unfold names. rewrite length_fmap, length_seq. apply Z2Nat.id. lia. }
    rewrite (resolve_absent _ _ E). cbn [fst].
    rewrite Hu, Hlen. change (used t0) with 15%Z.
    split; [exact E|]. split; reflexivity.
Qed.

(** ** The table as a whole *)

(** C5 (amended).  After construction and after any sequence of [resolve]
    calls, a name that was resolved has one entry, the text returned; an
    entry of the table is never changed by a later [resolve]; and two
    distinct names that [resolve] added have distinct addresses.  (Names
    put in the table at construction may share an address.) *)
Theorem symbol_table_entries raw :
  exists t0,
    new_symboltable raw = OK t0
    /\ forall labels,
         let t := resolve_all labels t0 in
         (forall name,
            table (resolve name t).2 !! name = Some (resolve name t).1)
         /\ (forall name v later,
               table t !! name = Some v ->
               table (resolve_all later t) !! name = Some v
               /\ (resolve name (resolve_all later t)).1 = v)
         /\ (forall n1 n2 v1 v2,
               table t0 !! n1 = None -> table t0 !! n2 = None ->
               table t !! n1 = Some v1 -> table t !! n2 = Some v2 ->
               n1 <> n2 -> v1 <> v2).
Proof.
  rewrite new_symboltable_OK. eexists. split; [reflexivity|].
  intros labels. cbv zeta.
  set (t0 := {| lines := instructions (_sanitizeasm raw);
                table := scan_table (_sanitizeasm raw) predefined 0;
                used := 15 |}).
  split; [intros name; apply resolve_returns_entry|].
  split.
  - intros name v later H.
    pose proof (resolve_all_lookup_stable later _ _ _ H) as H'.
    split; [exact H'|]. now rewrite (resolve_present _ _ _ H').
  - intros n1 n2 v1 v2 H1 H2 Hv1 Hv2 Hne Heq. subst v2.
    assert (Hinv : variables_distinct t0 (resolve_all labels t0)).
    { apply resolve_all_variables_distinct, variables_distinct_init.
      change (used t0) with 15%Z. lia. }
    destruct Hinv as [_ Hinv].
    destruct (Hinv n1 v1 H1 Hv1) as (k & _ & _ & Huniq).
    apply Hne. symmetry. now apply Huniq.
Qed.

Lemma symbol_table_entries_witness :
  exists t0,
    new_symboltable [] = OK t0
    /\ table t0 !! "i" = None /\ table t0 !! "j" = None
    /\ table (resolve_all ["i"; "SP"; "j"; "i"] t0) !! "i"
       = Some "0000000000010000"
    /\ table (resolve_all ["i"; "SP"; "j"; "i"] t0) !! "j"
       = Some "0000000000010001"
    /\ "i" <> "j"
    /\ "0000000000010000" <> "0000000000010001"
    /\ table (resolve_all ["k"] (resolve_all ["i"; "SP"; "j"; "i"] t0)) !! "i"
       = Some "0000000000010000".
Proof.
  destruct (symbol_table_entries []) as (t0 & H0 & H).
  exists t0. split; [exact H0|].
  rewrite new_symboltable_OK in H0. injection H0 as <-.
  destruct (H ["i"; "SP"; "j"; "i"]) as (_ & Hst & Hd).
  assert (Ei : table {| lines := instructions (_sanitizeasm []);
                       table := scan_table (_sanitizeasm []) predefined 0;
                       used := 15 |} !! "i" = None)
    by (vm_compute; reflexivity).
  assert (Ej : table {| lines := instructions (_sanitizeasm []);
                       table := scan_table (_sanitizeasm []) predefined 0;
                       used := 15 |} !! "j" = None)
    by (vm_compute; reflexivity).
  assert (Hi : table (resolve_all ["i"; "SP"; "j"; "i"]
                 {| lines := instructions (_sanitizeasm []);
                    table := scan_table (_sanitizeasm []) predefined 0;
                    used := 15 |}) !! "i" = Some "0000000000010000")
    by (vm_compute; reflexivity).
  assert (Hj : table (resolve_all ["i"; "SP"; "j"; "i"]
                 {| lines := instructions (_sanitizeasm []);
                    table := scan_table (_sanitizeasm []) predefined 0;
                    used := 15 |}) !! "j" = Some "0000000000010001")
    by (vm_compute; reflexivity).
  split; [exact Ei|]. split; [exact Ej|].
  split; [exact Hi|]. split; [exact Hj|].
  split; [discriminate|].
  split; [apply (Hd "i" "j" _ _ Ei Ej Hi Hj); discriminate|].
  apply (Hst "i" _ ["k"] Hi).
Defined.

(** C5, as stated, fails from the start: the table as constructed maps
    [R0] and [SP] to the same address. *)
Lemma predefined_names_share_addresses :
  exists t0,
    new_symboltable [] = OK t0
    /\ table t0 !! "R0" = Some "0000000000000000"
    /\ table t0 !! "SP" = Some "0000000000000000"
    /\ "R0" <> "SP".
Proof.
  rewrite new_symboltable_OK. eexists. split; [reflexivity|].
  split; [vm_compute; reflexivity|].
  split; [vm_compute; reflexivity|discriminate].
Qed.

(** * Further properties *)

(** ** [_sanitizeline] *)

#[local] Arguments Ascii.eqb : simpl never.

Lemma remove_spaces_no_space s c :
  In c (list_ascii_of_string (remove_spaces s)) -> py_isspace c = false.
Proof.
  induction s as [|d s IH]; simpl; [contradiction|].
  destruct (py_isspace d) eqn:E; simpl; [assumption|].
  intros [<-|H]; auto.
Qed.

(** X1.  A sanitized line holds no white space. *)
Theorem sanitized_line_has_no_space s c :
  In c (list_ascii_of_string (_sanitizeline s)) -> py_isspace c = false.
Proof. apply remove_spaces_no_space. Qed.

Lemma sanitized_line_has_no_space_witness :
  In "="%char (list_ascii_of_string (_sanitizeline " D = M // x y"))
  /\ py_isspace "="%char = false.
Proof.
  assert (H : In "="%char
                 (list_ascii_of_string (_sanitizeline " D = M // x y")))
    by (vm_compute; tauto).
  split; [exact H|].
  exact (sanitized_line_has_no_space " D = M // x y" "="%char H).
Defined.

Lemma before_comment_marker a b :
  before_comment (a +:+ "//" +:+ b) = before_comment (a +:+ "//").
Proof.
  induction a as [|c a IH]; [reflexivity|].
  destruct a as [|d a].
  - simpl. destruct (Ascii.eqb "/" c); reflexivity.
  - simpl in *.
    destruct (Ascii.eqb "/" c); [destruct (Ascii.eqb "/" d)|];
      try reflexivity; f_equal; exact IH.
Qed.

Lemma before_comment_marker_end a :
  last_char a <> OK "/"%char ->
  before_comment (a +:+ "//") = before_comment a.
Proof.
  induction a as [|c a IH]; intros Hl; [reflexivity|].
  destruct a as [|d a].
  - simpl in *.
    destruct (Ascii.eqb_spec "/" c) as [<-|Hc]; [congruence|reflexivity].
  - change (last_char (String c (String d a))) with (last_char (String d a))
      in Hl.
    specialize (IH Hl). simpl in *.
    destruct (Ascii.eqb "/" c); [destruct (Ascii.eqb "/" d)|];
      try reflexivity; f_equal; exact IH.
Qed.

(** X2.  The text after the comment marker has no effect on the sanitized
    line; when the text before the marker does not end in [/], the
    sanitized line is that of the text before the marker. *)
Theorem comment_text_is_ignored a b :
  _sanitizeline (a +:+ "//" +:+ b) = _sanitizeline (a +:+ "//")
  /\ (last_char a <> OK "/"%char ->
      _sanitizeline (a +:+ "//" +:+ b) = _sanitizeline a).
Proof.
  unfold _sanitizeline. rewrite before_comment_marker. split; [reflexivity|].
  intros H. now rewrite before_comment_marker_end.
Qed.

Lemma comment_text_is_ignored_witness :
  last_char "D=M " <> OK "/"%char
  /\ _sanitizeline ("D=M " +:+ "//" +:+ " load") = _sanitizeline "D=M ".
Proof.
  assert (H : last_char "D=M " <> OK "/"%char) by discriminate.
  split; [exact H|].
  exact (proj2 (comment_text_is_ignored "D=M " " load") H).
Defined.

Lemma space_not_slash c : py_isspace c = true -> Ascii.eqb "/" c = false.
Proof.
  intros H.
  destruct (Ascii.eqb_spec "/" c) as [<-|]; [discriminate|reflexivity].
Qed.

Lemma sanitize_lstrip s : _sanitizeline (lstrip s) = _sanitizeline s.
Proof.
  unfold _sanitizeline. induction s as [|c s IH]; [reflexivity|].
  cbn [lstrip]. destruct (py_isspace c) eqn:E; [|reflexivity].
  rewrite IH. cbn [before_comment strip_prefix].
  rewrite (space_not_slash c E). cbn [remove_spaces]. now rewrite E.
Qed.

(** A text that [rstrip] empties is white space only. *)
Lemma rstrip_empty s :
  rstrip s = "" ->
  remove_spaces (before_comment s) = ""
  /\ (s = "" \/ exists d s', s = String d s' /\ py_isspace d = true).
Proof.
  induction s as [|c s IH]; [auto|].
  cbn [rstrip]. destruct (rstrip s) eqn:E; [|discriminate].
  destruct (py_isspace c) eqn:Ec; [|discriminate]. intros _.
  destruct (IH eq_refl) as [IH1 _].
  split; [|right; eauto].
  cbn [before_comment strip_prefix]. rewrite (space_not_slash c Ec).
  cbn [remove_spaces]. now rewrite Ec.
Qed.

Lemma rstrip_head s d r : rstrip s = String d r -> exists s', s = String d s'.
Proof.
  destruct s as [|c s]; [discriminate|]. cbn [rstrip].
  destruct (rstrip s); [destruct (py_isspace c)|]; intros [= <- _]; eauto.
Qed.

Lemma before_comment_cons2 c d x :
  before_comment (String c (String d x)) =
  if Ascii.eqb "/" c && Ascii.eqb "/" d then ""
  else String c (before_comment (String d x)).
Proof.
  cbn [before_comment strip_prefix].
  destruct (Ascii.eqb "/" c), (Ascii.eqb "/" d); reflexivity.
Qed.

Lemma sanitize_rstrip s : _sanitizeline (rstrip s) = _sanitizeline s.
Proof.
  unfold _sanitizeline. induction s as [|c s IH]; [reflexivity|].
  cbn [rstrip]. destruct (rstrip s) as [|d r] eqn:E.
  - destruct (rstrip_empty s E) as [Hs Hhd].
    assert (Hc : before_comment (String c s) = String c (before_comment s)).
    { cbn [before_comment strip_prefix].
      destruct (Ascii.eqb "/" c); [|reflexivity].
      destruct Hhd as [->|(d & s' & -> & Hd)]; [reflexivity|].
      now rewrite (space_not_slash d Hd). }
    rewrite Hc. cbn [remove_spaces]. rewrite Hs.
    destruct (py_isspace c) eqn:Ec; [reflexivity|].
    cbn [before_comment strip_prefix].
    destruct (Ascii.eqb "/" c); cbn [remove_spaces]; now rewrite Ec.
  - destruct (rstrip_head s d r E) as [s' ->].
    rewrite !before_comment_cons2.
    destruct (Ascii.eqb "/" c && Ascii.eqb "/" d); [reflexivity|].
    cbn [remove_spaces]. now rewrite IH.
Qed.

Lemma sanitize_strip s : _sanitizeline (py_strip s) = _sanitizeline s.
Proof. unfold py_strip. now rewrite sanitize_rstrip, sanitize_lstrip. Qed.

(** X3.  The [strip()] that [main] applies to the lines it reads changes
    nothing for the symbol table builder: the sanitized source is the
    same with and without it. *)
Theorem strip_before_sanitize asm :
  _sanitizeasm (py_strip <$> asm) = _sanitizeasm asm.
Proof.
  induction asm as [|l asm IH]; [reflexivity|].
  cbn [fmap list_fmap _sanitizeasm]. rewrite sanitize_strip.
  change (list_fmap _ _ py_strip asm) with (py_strip <$> asm).
  now rewrite IH.
Qed.

(** ** More on the construction of the symbol table *)

Lemma scan_empty_line ls : forall i st,
  In "" ls -> scan i ls st = Raise IndexError.
Proof.
  induction ls as [|l ls IH]; intros i st Hin; [contradiction|].
  cbn [scan]. destruct l as [|c s]; [reflexivity|].
  destruct Hin as [Hl|Hin]; [discriminate|].
  rewrite is_label_nonempty. cbn [bind].
  destruct (label_shaped (String c s)); now apply IH.
Qed.

(** X4.  [inittable] ends in an [IndexError] exactly when one of its lines
    is empty; otherwise it returns the instruction lines, the scanned
    table and the counter 15.  The lines [__init__] passes to it are never
    empty. *)
Theorem inittable_empty_line ls :
  (In "" ls -> inittable ls = Raise IndexError)
  /\ (~ In "" ls ->
      inittable ls =
      OK {| lines := instructions ls;
            table := scan_table ls predefined 0;
            used := 15 |})
  /\ forall raw, ~ In "" (_sanitizeasm raw).
Proof.
  assert (Hne : forall l : list string,
             ~ In "" l <-> Forall (fun x => x <> "") l).
  { intros l. rewrite Forall_forall. split.
    - intros H x Hx ->. apply H. now apply list_elem_of_In.
    - intros H Hin. apply list_elem_of_In in Hin. now apply (H "" Hin). }
  split; [|split].
  - intros Hin. unfold inittable. now rewrite scan_empty_line.
  - intros Hin. apply Hne in Hin. unfold inittable.
    rewrite scan_OK by assumption. cbn [bind fst snd app].
    pose proof (collect_kept ls []) as H. cbn [app length] in H.
    rewrite H. reflexivity.
  - intros raw. apply Hne, _sanitizeasm_nonempty.
Qed.

Lemma inittable_empty_line_witness :
  In "" ["@1"; ""; "(A)"]
  /\ inittable ["@1"; ""; "(A)"] = Raise IndexError
  /\ ~ In "" ["@1"; "(A)"; "@A"]
  /\ (exists t, inittable ["@1"; "(A)"; "@A"] = OK t
                /\ lines t = ["@1"; "@A"]
                /\ table t !! "A" = Some "0000000000000001").
Proof.
  assert (H1 : In "" ["@1"; ""; "(A)"]) by (simpl; tauto).
  assert (H2 : ~ In "" ["@1"; "(A)"; "@A"])
    by (simpl; intros [H|[H|[H|[]]]]; discriminate).
  split; [exact H1|].
  split; [exact (proj1 (inittable_empty_line _) H1)|].
  split; [exact H2|].
  eexists. split; [exact (proj1 (proj2 (inittable_empty_line _)) H2)|].
  split; vm_compute; reflexivity.
Defined.

Lemma remove_spaces_idem s : remove_spaces (remove_spaces s) = remove_spaces s.
Proof.
  induction s as [|c s IH]; [reflexivity|]. cbn [remove_spaces].
  destruct (py_isspace c) eqn:E; [assumption|].
  cbn [remove_spaces]. now rewrite E, IH.
Qed.

Lemma _sanitizeasm_filter raw :
  _sanitizeasm raw = filter (fun l => l <> "") (_sanitizeline <$> raw).
Proof.
  induction raw as [|l raw IH]; [reflexivity|].
  cbn [_sanitizeasm fmap list_fmap]. rewrite filter_cons.
  change (list_fmap _ _ _sanitizeline raw) with (_sanitizeline <$> raw).
  destruct (_sanitizeline l) eqn:E; cbn [truthy].
  - destruct (decide ("" <> "")) as [Hd|Hd]; [now destruct Hd|assumption].
  - destruct (decide (String a s <> "")) as [Hd|Hd];
      [now rewrite IH|now destruct Hd].
Qed.

(** X5.  The lines kept for pass 2 are the sanitized lines that are
    neither empty nor label declarations, in source order; none holds
    white space, and [resolve] never changes them. *)
Theorem pass2_lines raw :
  exists t,
    new_symboltable raw = OK t
    /\ lines t = instructions (_sanitizeasm raw)
    /\ sublist (lines t) (_sanitizeline <$> raw)
    /\ Forall (fun l => l <> "" /\ label_shaped l = false
                        /\ remove_spaces l = l) (lines t)
    /\ forall labels, lines (resolve_all labels t) = lines t.
Proof.
  rewrite new_symboltable_OK. eexists. split; [reflexivity|]. cbn [lines].
  split; [reflexivity|]. split; [|split].
  - unfold instructions. rewrite _sanitizeasm_filter.
    etrans; apply sublist_filter.
  - apply Forall_forall. intros l Hl. unfold instructions in Hl.
    apply list_elem_of_filter in Hl as [Hlab Hl].
    rewrite _sanitizeasm_filter in Hl.
    apply list_elem_of_filter in Hl as [Hne Hl].
    apply list_elem_of_fmap in Hl as (r & -> & _).
    repeat split; try assumption. apply remove_spaces_idem.
  - intros labels. apply resolve_all_lines.
Qed.

(** ** Predefined names *)

(** X6.  A predefined name that no label declaration redefines keeps its
    address: every [resolve] of it, at any point of the run, returns the
    predefined text and leaves the table as it is. *)
Theorem predefined_name_resolves raw name v :
  predefined !! name = Some v ->
  (forall l, In l (_sanitizeasm raw) -> label_shaped l = true ->
             slice_1_m1 l <> name) ->
  exists t,
    new_symboltable raw = OK t
    /\ forall labels,
         resolve name (resolve_all labels t) = (v, resolve_all labels t).
Proof.
  intros Hpre Hlab. rewrite new_symboltable_OK. eexists.
  split; [reflexivity|]. intros labels. apply resolve_present.
  apply resolve_all_lookup_stable. cbn [table].
  now rewrite scan_table_other.
Qed.

Lemma predefined_name_resolves_witness :
  predefined !! "SCREEN" = Some "0100000000000000"
  /\ exists t,
       new_symboltable ["(LOOP)"; "@SCREEN"; "@x"] = OK t
       /\ resolve "SCREEN" (resolve_all ["x"; "LOOP"] t)
          = ("0100000000000000", resolve_all ["x"; "LOOP"] t).
Proof.
  assert (H : predefined !! "SCREEN" = Some "0100000000000000")
    by (vm_compute; reflexivity).
  split; [exact H|].
  destruct (predefined_name_resolves ["(LOOP)"; "@SCREEN"; "@x"] "SCREEN" _ H)
    as (t & Ht & Hr).
  - intros l Hl Hlab Heq.
    change (_sanitizeasm ["(LOOP)"; "@SCREEN"; "@x"])
      with ["(LOOP)"; "@SCREEN"; "@x"] in Hl.
    simpl in Hl. destruct Hl as [<-|[<-|[<-|[]]]]; discriminate.
  - exists t. split; [exact Ht|]. apply Hr.
Defined.

(** ** The values of the table *)

Lemma binary_address_facts v :
  binary_address v ->
  is_binary v = true /\ (16 <= String.length v)%nat
  /\ v = format_016b (bin_value v) /\ (0 <= bin_value v)%Z.
Proof.
  intros (k & Hk & ->).
  rewrite bin_value_format_016b by assumption.
  split; [now apply is_binary_format_016b|].
  split; [|split; [reflexivity|assumption]].
  destruct k as [|p|p]; [vm_compute; lia| |lia].
  unfold format_016b. rewrite length_zfill. lia.
Qed.

Lemma predefined_binary_address name v :
  predefined !! name = Some v -> binary_address v.
Proof.
  rewrite <- (list_to_map_to_list predefined). intros H.
  apply elem_of_list_to_map_2 in H.
  let l := eval vm_compute in (map_to_list predefined) in
  replace (map_to_list predefined) with l in H by (vm_compute; reflexivity).
  apply list_elem_of_In in H. simpl in H.
  repeat (destruct H as [H|H];
          [injection H as <- <-;
           match goal with
           | |- binary_address ?w =>
               let k := eval vm_compute in (bin_value w) in
               exists k; split; [lia|vm_compute; reflexivity]
           end|]).
  contradiction.
Qed.

Lemma scan_table_binary_address ls : forall tb c,
  (0 <= c)%Z ->
  (forall n v, tb !! n = Some v -> binary_address v) ->
  forall n v, scan_table ls tb c !! n = Some v -> binary_address v.
Proof.
  induction ls as [|l ls IH]; intros tb c Hc Htb; [exact Htb|].
  cbn [scan_table]. destruct (label_shaped l).
  - apply IH; [assumption|]. intros n v.
    destruct (decide (n = slice_1_m1 l)) as [->|Hne].
    + rewrite lookup_insert_eq. intros [= <-]. now exists c.
    + rewrite lookup_insert_ne by congruence. apply Htb.
  - apply IH; [lia|assumption].
Qed.

Lemma resolve_binary_address t l :
  (0 <= used t)%Z ->
  (forall n v, table t !! n = Some v -> binary_address v) ->
  (0 <= used (resolve l t).2)%Z
  /\ forall n v, table (resolve l t).2 !! n = Some v -> binary_address v.
Proof.
  intros Hu Ht. destruct (table t !! l) as [w|] eqn:E.
  - rewrite (resolve_present _ _ _ E). now split.
  - rewrite (resolve_absent _ _ E). cbn [snd used table].
    split; [lia|]. intros n v.
    destruct (decide (n = l)) as [->|Hne].
    + rewrite lookup_insert_eq. intros [= <-].
      exists (used t + 1)%Z. split; [lia|reflexivity].
    + rewrite lookup_insert_ne by congruence. apply Ht.
Qed.

Lemma resolve_all_binary_address ls : forall t,
  (0 <= used t)%Z ->
  (forall n v, table t !! n = Some v -> binary_address v) ->
  forall n v, table (resolve_all ls t) !! n = Some v -> binary_address v.
Proof.
  induction ls as [|l ls IH]; intros t Hu Ht; [exact Ht|].
  rewrite resolve_all_cons.
  destruct (resolve_binary_address t l Hu Ht) as [Hu' Ht'].
  now apply IH.
Qed.

(** X7.  At every point of a run, after construction and after any
    sequence of [resolve] calls, every value of the table is
    [format(k, '016b')] for an address [k >= 0]: at least 16 characters,
    all of them binary digits, denoting [k]. *)
Theorem table_values_are_binary raw :
  exists t0,
    new_symboltable raw = OK t0
    /\ forall labels name v,
         table (resolve_all labels t0) !! name = Some v ->
         is_binary v = true /\ (16 <= String.length v)%nat
         /\ v = format_016b (bin_value v) /\ (0 <= bin_value v)%Z.
Proof.
  rewrite new_symboltable_OK. eexists. split; [reflexivity|].
  intros labels name v H. apply binary_address_facts.
  revert name v H. apply resolve_all_binary_address; cbn [used table]; [lia|].
  apply scan_table_binary_address; [lia|].
  apply predefined_binary_address.
Qed.

Lemma table_values_are_binary_witness :
  exists t0,
    new_symboltable ["@i"; "(END)"; "@END"] = OK t0
    /\ table (resolve_all ["i"; "END"] t0) !! "i" = Some "0000000000010000"
    /\ is_binary "0000000000010000" = true
    /\ (16 <= String.length "0000000000010000")%nat.
Proof.
  destruct (table_values_are_binary ["@i"; "(END)"; "@END"]) as (t0 & H0 & H).
  exists t0. split; [exact H0|].
  assert (Hi : table (resolve_all ["i"; "END"] t0) !! "i"
               = Some "0000000000010000").
  { rewrite new_symboltable_OK in H0.
    apply (f_equal (fun r => match r with OK t => t | Raise _ => t0 end))
      in H0.
    rewrite <- H0. vm_compute. reflexivity. }
  split; [exact Hi|].
  destruct (H _ _ _ Hi) as (Hb & Hl & _). split; assumption.
Defined.

(** ** [__getitem__] *)

(** X8.  Indexing the symbol table by a name that was resolved gives the
    text [resolve] returned; indexing by a name absent from the table
    raises [KeyError] (and, unlike [resolve], adds nothing); and a name
    that indexing finds is resolved without any change to the table. *)
Theorem getitem_resolve t name :
  __getitem__ (resolve name t).2 name = OK (resolve name t).1
  /\ (table t !! name = None -> __getitem__ t name = Raise (KeyError name))
  /\ (forall v, __getitem__ t name = OK v -> resolve name t = (v, t)).
Proof.
  unfold __getitem__, dict_get. split; [|split].
  - now rewrite resolve_returns_entry.
  - now intros ->.
  - intros v. destruct (table t !! name) as [w|] eqn:E; [|discriminate].
    intros [= <-]. now apply resolve_present.
Qed.

Lemma getitem_resolve_witness :
  exists t,
    new_symboltable [] = OK t
    /\ table t !! "sum" = None
    /\ __getitem__ t "sum" = Raise (KeyError "sum")
    /\ __getitem__ t "KBD" = OK "0110000000000000"
    /\ resolve "KBD" t = ("0110000000000000", t).
Proof.
  rewrite new_symboltable_OK. eexists. split; [reflexivity|].
  set (t := {| lines := instructions (_sanitizeasm []);
               table := scan_table (_sanitizeasm []) predefined 0;
               used := 15 |}).
  assert (Hs : table t !! "sum" = None) by (vm_compute; reflexivity).
  assert (Hk : __getitem__ t "KBD" = OK "0110000000000000")
    by (vm_compute; reflexivity).
  destruct (getitem_resolve t "sum") as (_ & Habs & _).
  destruct (getitem_resolve t "KBD") as (_ & _ & Hpres).
  split; [exact Hs|]. split; [exact (Habs Hs)|].
  split; [exact Hk|]. exact (Hpres _ Hk).
Defined.

(** ** The words of compute instructions *)

Ltac table_cases H :=
  apply elem_of_list_to_map_2, list_elem_of_In in H; simpl in H;
  repeat (destruct H as [H|H]; [injection H as <- <-|]);
  try contradiction.

Ltac table_cases_at H :=
  apply elem_of_list_to_map_2, list_elem_of_In in H; simpl in H;
  repeat (destruct H as [H|H];
          [first [discriminate H|injection H as <-]|]);
  try contradiction.

Lemma dest_table_bits k v :
  dest_table !! k = Some v -> String.length v = 3%nat /\ is_binary v = true.
Proof. intros H. table_cases H; split; reflexivity. Qed.

Lemma jmp_table_bits k v :
  jmp_table !! k = Some v -> String.length v = 3%nat /\ is_binary v = true.
Proof. intros H. table_cases H; split; reflexivity. Qed.

Lemma comp_table_bits k v :
  comp_table !! k = Some v ->
  String.length v = 10%nat /\ is_binary v = true
  /\ exists r, v = "111" +:+ r.
Proof.
  intros H. table_cases H;
    (split; [reflexivity|split; [reflexivity|eexists; reflexivity]]).
Qed.

Lemma dict_get_OK d k v : dict_get d k = OK v -> d !! k = Some v.
Proof. unfold dict_get. destruct (d !! k); congruence. Qed.

Lemma code_parse_bits ln dest comp jmp :
  code_parse ln = OK (dest, comp, jmp) ->
  (String.length dest = 3%nat /\ is_binary dest = true)
  /\ (String.length jmp = 3%nat /\ is_binary jmp = true)
  /\ forall c, comp = Some c ->
       truthy comp = true /\ String.length c = 10%nat /\ is_binary c = true
       /\ exists r, c = "111" +:+ r.
Proof.
  unfold code_parse.
  destruct (re_match _re_line ln) as [g|]; [|discriminate].
  destruct (dict_get dest_table (py_str (group g 2))) as [d|] eqn:Ed;
    cbn [bind]; [|discriminate].
  destruct (dict_get jmp_table (py_str (group g 5))) as [j|] eqn:Ej.
  2:{ destruct (truthy (group g 3)); cbn [bind]; [|discriminate].
      destruct (dict_get comp_table (py_str (group g 3))); discriminate. }
  apply dict_get_OK in Ed, Ej.
  destruct (truthy (group g 3)); cbn [bind].
  - destruct (dict_get comp_table (py_str (group g 3))) as [c|] eqn:Ec;
      cbn [bind]; [|discriminate].
    apply dict_get_OK in Ec. intros [= <- <- <-].
    split; [now apply dest_table_bits with (k := py_str (group g 2))|].
    split; [now apply jmp_table_bits with (k := py_str (group g 5))|].
    intros c' [= <-].
    destruct (comp_table_bits _ _ Ec) as (Hl & Hb & Hr).
    split; [|auto]. destruct c; [discriminate|reflexivity].
  - intros [= <- <- <-].
    split; [now apply dest_table_bits with (k := py_str (group g 2))|].
    split; [now apply jmp_table_bits with (k := py_str (group g 5))|].
    discriminate.
Qed.

(** X9.  What a successful [parseline] holds.  Its [line] is the
    sanitized argument.  With type [c_type] the binary has exactly 16
    binary digits, the first three being [111], the line does not start
    with [@] and the symbol table is untouched; with type [a_type] the
    line starts with [@]; with no type the binary is empty and the line
    has the shape of a label declaration. *)
Theorem parseline_classification ln loc symbolics p symbolics' :
  new_parseline ln loc symbolics = (OK p, symbolics') ->
  line p = _sanitizeline ln /\ line_loc p = loc
  /\ match type p with
     | Some c_type =>
         first_char ln <> OK "@"%char /\ symbolics' = symbolics
         /\ String.length (binary p) = 16%nat
         /\ is_binary (binary p) = true
         /\ exists r, binary p = "111" +:+ r
     | Some a_type => exists operand, ln = String "@" operand
     | None =>
         label_shaped ln = true /\ binary p = "" /\ symbolics' = symbolics
     end.
Proof.
  unfold new_parseline, subclass.
  destruct (code_parse ln) as [[[dest comp] jmp]|e] eqn:Ecp;
    [|cbn [fst snd bind]; discriminate].
  destruct (code_parse_bits _ _ _ _ Ecp) as ((Hdl & Hdb) & (Hjl & Hjb) & Hc).
  destruct ln as [|c0 s]; [cbn [first_char fst snd bind]; discriminate|].
  cbn [first_char]. destruct (Ascii.eqb_spec c0 "@") as [->|Hc0].
  - cbn [fst snd].
    destruct (address_parse loc (slice_from_1 (String "@" s)) loc symbolics).1;
      cbn [bind]; [|discriminate].
    intros [= <- _]. cbn [line line_loc type]. eauto.
  - destruct comp as [c|].
    + destruct (Hc c eq_refl) as (Htr & Hcl & Hcb & r & ->).
      rewrite Htr. cbn [fst snd bind py_str]. intros [= <- <-].
      cbn [line line_loc type binary].
      split; [reflexivity|]. split; [reflexivity|].
      split; [congruence|]. split; [reflexivity|].
      split; [rewrite !length_append in *; lia|].
      split; [|eexists; reflexivity].
      rewrite !is_binary_append, Hdb, Hjb.
      rewrite is_binary_append in Hcb. now rewrite Hcb.
    + cbn [truthy fst snd]. rewrite is_label_nonempty. cbn [bind].
      destruct (label_shaped (String c0 s)) eqn:El.
      * intros [= <- <-]. cbn [line line_loc type binary]. auto.
      * cbn [String.eqb]. rewrite raise_ParseError_positional. discriminate.
Qed.

Lemma append_inj_length (a a' b b' : string) :
  String.length a = String.length a' ->
  a +:+ b = a' +:+ b' -> a = a' /\ b = b'.
Proof.
  revert a'. induction a as [|c a IH]; intros [|c' a'] Hl H;
    try discriminate; [now split|].
  injection Hl as Hl. injection H as -> H.
  destruct (IH a' Hl H) as [-> ->]. now split.
Qed.

Lemma comp_table_inj k k' v :
  comp_table !! k = Some v -> comp_table !! k' = Some v -> k = k'.
Proof.
  intros H H'. table_cases H; table_cases_at H'; reflexivity.
Qed.

Lemma dest_table_inj k k' v :
  dest_table !! k = Some v -> dest_table !! k' = Some v -> k = k'.
Proof.
  intros H H'. table_cases H; table_cases_at H'; reflexivity.
Qed.

Lemma jmp_table_inj k k' v :
  jmp_table !! k = Some v -> jmp_table !! k' = Some v -> k = k'.
Proof.
  intros H H'. table_cases H; table_cases_at H'; reflexivity.
Qed.

(** X10.  The word of a compute instruction determines its parts: two
    choices of table keys for the computation, the destination and the
    jump that give the same 16 bits are the same choice. *)
Theorem compute_word_determines_parts c d j c' d' j' cc dc jc cc' dc' jc' :
  comp_table !! c = Some cc -> dest_table !! d = Some dc ->
  jmp_table !! j = Some jc ->
  comp_table !! c' = Some cc' -> dest_table !! d' = Some dc' ->
  jmp_table !! j' = Some jc' ->
  cc +:+ dc +:+ jc = cc' +:+ dc' +:+ jc' ->
  c = c' /\ d = d' /\ j = j'.
Proof.
  intros Hc Hd Hj Hc' Hd' Hj' Heq.
  destruct (comp_table_bits _ _ Hc) as (Lc & _).
  destruct (comp_table_bits _ _ Hc') as (Lc' & _).
  destruct (dest_table_bits _ _ Hd) as (Ld & _).
  destruct (dest_table_bits _ _ Hd') as (Ld' & _).
  apply append_inj_length in Heq as [<- Heq]; [|congruence].
  apply append_inj_length in Heq as [<- <-]; [|congruence].
  split; [eapply comp_table_inj; eauto|].
  split; [eapply dest_table_inj; eauto|eapply jmp_table_inj; eauto].
Qed.

Lemma compute_word_determines_parts_witness :
  comp_table !! "D+1" = Some "1110011111"
  /\ dest_table !! "D" = Some "010"
  /\ jmp_table !! "None" = Some "000"
  /\ forall c d j cc dc jc,
       comp_table !! c = Some cc -> dest_table !! d = Some dc ->
       jmp_table !! j = Some jc ->
       "1110011111" +:+ "010" +:+ "000" = cc +:+ dc +:+ jc ->
       "D+1" = c /\ "D" = d /\ "None" = j.
Proof.
  assert (Hc : comp_table !! "D+1" = Some "1110011111")
    by (vm_compute; reflexivity).
  assert (Hd : dest_table !! "D" = Some "010") by (vm_compute; reflexivity).
  assert (Hj : jmp_table !! "None" = Some "000") by (vm_compute; reflexivity).
  split; [exact Hc|]. split; [exact Hd|]. split; [exact Hj|].
  intros c d j cc dc jc Hc' Hd' Hj' Heq.
  exact (compute_word_determines_parts _ _ _ _ _ _ _ _ _ _ _ _
           Hc Hd Hj Hc' Hd' Hj' Heq).
Defined.

(** ** Longest match of the computation *)

Lemma append_assoc (a b c : string) : (a +:+ b) +:+ c = a +:+ b +:+ c.
Proof.
  induction a as [|x a IH]; [reflexivity|].
  change (String x ((a +:+ b) +:+ c) = String x (a +:+ b +:+ c)).
  now rewrite IH.
Qed.

Lemma strip_prefix_Some p : forall s r,
  strip_prefix p s = Some r -> s = p +:+ r.
Proof.
  induction p as [|a p IH]; intros s r H; cbn [strip_prefix] in H.
  - injection H as ->. reflexivity.
  - destruct s as [|b s]; [discriminate|].
    destruct (Ascii.eqb_spec a b) as [->|]; [|discriminate].
    change (String b s = String b (p +:+ r)). now rewrite (IH _ _ H).
Qed.

(** The text is the matched text followed by the rest. *)
Lemma matches_split r : forall s g m,
  In m (matches r s g) -> s = m.1.1 +:+ m.1.2.
Proof.
  induction r as [l|a IHa b IHb|a IHa b IHb|a IHa|k a IHa]; intros s g m Hm;
    cbn [matches] in Hm.
  - destruct (strip_prefix l s) as [s'|] eqn:E; [|contradiction].
    destruct Hm as [<-|[]]. now apply strip_prefix_Some.
  - apply in_app_iff in Hm. destruct Hm; eauto.
  - apply in_flat_map in Hm as [m1 [H1 H2]].
    apply in_map_iff in H2 as [m2 [<- H2]].
    change (s = (m1.1.1 +:+ m2.1.1) +:+ m2.1.2).
    rewrite append_assoc, <- (IHb _ _ _ H2). eauto.
  - apply in_app_iff in Hm. destruct Hm as [Hm|[<-|[]]]; eauto.
  - apply in_map_iff in Hm as [m' [<- Hm]]. cbn [fst snd]. eauto.
Qed.

(** With a second part that always matches, the first match of a
    concatenation is made of the first matches of its parts. *)
Lemma head_matches_Seq a b s g m :
  always b = true ->
  head (matches (Seq a b) s g) = Some m ->
  exists m1 m2,
    head (matches a s g) = Some m1
    /\ head (matches b m1.1.2 m1.2) = Some m2
    /\ m = (m1.1.1 +:+ m2.1.1, m2.1.2, m2.2).
Proof.
  intros Hb. cbn [matches].
  destruct (matches a s g) as [|m1 l1]; [discriminate|]. cbn [flat_map].
  pose proof (matches_always b m1.1.2 m1.2 Hb) as Hne.
  destruct (matches b m1.1.2 m1.2) as [|m2 l2] eqn:Eb; [congruence|].
  cbn [map app head]. intros [= <-]. exists m1, m2.
  split; [reflexivity|]. split; [now rewrite Eb|reflexivity].
Qed.

Lemma head_In {A} (l : list A) x : head l = Some x -> In x l.
Proof. destruct l; [discriminate|]. intros [= ->]. now left. Qed.

Lemma matches_re_comp s g :
  matches _re_comp s g =
  map (fun m => (m.1.1, m.1.2, <[3%nat := m.1.1]> m.2))
      (lit_matches comp_alternatives s g).
Proof. reflexivity. Qed.

Lemma head_lit_matches ls : forall s g m,
  head (lit_matches ls s g) = Some m ->
  exists pre post,
    ls = (pre ++ m.1.1 :: post)%list
    /\ strip_prefix m.1.1 s = Some m.1.2 /\ m.2 = g
    /\ forall k, In k pre -> strip_prefix k s = None.
Proof.
  induction ls as [|l ls IH]; intros s g m; [discriminate|].
  unfold lit_matches. cbn [flat_map matches].
  destruct (strip_prefix l s) as [s'|] eqn:E.
  - cbn [app head]. intros [= <-]. exists [], ls. cbn [fst snd app].
    repeat split; auto. intros k [].
  - cbn [app]. intros H.
    destruct (IH _ _ _ H) as (pre & post & -> & H1 & H2 & H3).
    exists (l :: pre), post. repeat split; auto.
    intros k [<-|Hk]; auto.
Qed.

Lemma longest_first_spec ls : forall pre t post k,
  longest_first ls = true ->
  ls = (pre ++ t :: post)%list -> In k post -> strip_prefix t k = None.
Proof.
  induction ls as [|l ls IH]; intros pre t post k Hlf Hls Hk.
  - destruct pre; discriminate.
  - cbn [longest_first] in Hlf. apply andb_true_iff in Hlf as [Hall Hlf].
    destruct pre as [|p pre]; cbn [app] in Hls; injection Hls as -> ->.
    + rewrite forallb_forall in Hall. specialize (Hall k Hk).
      destruct (strip_prefix t k); [discriminate|reflexivity].
    + eapply IH; eauto.
Qed.

(** Of two texts that start the same text, the shorter starts the
    longer. *)
Lemma strip_prefix_common t : forall k s r r',
  strip_prefix t s = Some r -> strip_prefix k s = Some r' ->
  (String.length t <= String.length k)%nat ->
  strip_prefix t k <> None.
Proof.
  induction t as [|a t IH]; intros k s r r' Ht Hk Hl; [discriminate|].
  destruct k as [|b k]; [simpl in Hl; lia|].
  destruct s as [|c s]; [discriminate|].
  cbn [strip_prefix] in *.
  destruct (Ascii.eqb_spec a c) as [->|]; [|discriminate].
  destruct (Ascii.eqb_spec b c) as [->|]; [|discriminate].
  rewrite Ascii.eqb_refl. eapply IH; eauto. simpl in Hl. lia.
Qed.

Lemma comp_key_alternative k v :
  comp_table !! k = Some v -> In k comp_alternatives.
Proof.
  intros H. table_cases H; unfold comp_alternatives;
    repeat first [left; reflexivity|right].
Qed.

Lemma comp_alternative_key t :
  In t comp_alternatives -> t = "" \/ is_Some (comp_table !! t).
Proof.
  intros H. unfold comp_alternatives in H. in_cases H;
    first [left; reflexivity|right; vm_compute; eexists; reflexivity].
Qed.

(** The first match of the computation group is the longest key of the
    computation table that starts the text, or the empty text when no key
    does. *)
Lemma head_matches_re_comp s g m :
  head (matches _re_comp s g) = Some m ->
  strip_prefix m.1.1 s = Some m.1.2
  /\ m.2 = <[3%nat := m.1.1]> g
  /\ (m.1.1 = "" \/ is_Some (comp_table !! m.1.1))
  /\ forall k, is_Some (comp_table !! k) -> strip_prefix k s <> None ->
               (String.length k <= String.length m.1.1)%nat.
Proof.
  rewrite matches_re_comp.
  destruct (lit_matches comp_alternatives s g) as [|m0 l] eqn:E;
    [discriminate|].
  cbn [map head]. intros [= <-]. cbn [fst snd].
  assert (H0 : head (lit_matches comp_alternatives s g) = Some m0)
    by now rewrite E.
  destruct (head_lit_matches _ _ _ _ H0) as (pre & post & Hls & Hp & -> & Hpre).
  split; [exact Hp|]. split; [reflexivity|].
  split.
  { apply comp_alternative_key. rewrite Hls. apply in_app_iff.
    right. now left. }
  intros k [v Hk] Hks.
  apply comp_key_alternative in Hk. rewrite Hls in Hk.
  apply in_app_iff in Hk as [Hk|[<-|Hk]].
  - now rewrite (Hpre k Hk) in Hks.
  - lia.
  - destruct (Nat.le_gt_cases (String.length k) (String.length m0.1.1))
      as [Hle|Hgt]; [exact Hle|exfalso].
    destruct (strip_prefix k s) as [r'|] eqn:Ek; [|congruence].
    apply (strip_prefix_common m0.1.1 k s _ _ Hp Ek); [lia|].
    eapply (longest_first_spec comp_alternatives); eauto.
Qed.

Lemma re_dest_group1 s m :
  In m (matches _re_dest s ∅) -> default "" (m.2 !! 1%nat) = m.1.1.
Proof.
  unfold _re_dest. cbn [matches]. intros H.
  apply in_app_iff in H as [H|[<-|[]]].
  - apply in_map_iff in H as [m' [<- _]]. cbn [fst snd].
    now rewrite lookup_insert_eq.
  - cbn [fst snd]. now rewrite lookup_empty.
Qed.

Lemma group_untouched n r s g m :
  group_texts n r = [] -> In m (matches r s g) -> m.2 !! n = g !! n.
Proof.
  intros Hn Hm. destruct (matches_group n r s g m Hm) as [H|(t & Ht & _)];
    [exact H|]. rewrite Hn in Ht. contradiction.
Qed.

(** X11.  The computation [code_parse] reads is the longest one: with
    [rest] the text after the destination part (group 1), what group 3
    holds starts [rest], is the empty text or a key of the computation
    table, and no key of the table that starts [rest] is longer. *)
Theorem longest_computation_match ln grouped_c :
  re_match _re_line ln = Some grouped_c ->
  exists rest t,
    ln = default "" (group grouped_c 1) +:+ rest
    /\ group grouped_c 3 = Some t
    /\ strip_prefix t rest <> None
    /\ (t = "" \/ is_Some (comp_table !! t))
    /\ forall k, is_Some (comp_table !! k) -> strip_prefix k rest <> None ->
                 (String.length k <= String.length t)%nat.
Proof.
  unfold re_match, group, _re_line.
  destruct (head (matches (Seq (Seq _re_dest _re_comp) _re_jmp) ln ∅))
    as [m|] eqn:E; [|discriminate].
  cbn [fmap option_fmap option_map]. intros [= <-].
  apply head_matches_Seq in E as (m12 & mj & H12 & Hj & ->); [|reflexivity].
  apply head_matches_Seq in H12 as (md & mc & Hd & Hc & ->); [|reflexivity].
  cbn [fst snd] in *.
  apply head_In in Hd, Hj.
  destruct (head_matches_re_comp _ _ _ Hc) as (Hp & Hg & Hkey & Hlong).
  pose proof (group_untouched 1 _re_jmp _ _ _ eq_refl Hj) as G1.
  pose proof (group_untouched 3 _re_jmp _ _ _ eq_refl Hj) as G3.
  exists md.1.2, mc.1.1.
  split.
  { rewrite G1, Hg, lookup_insert_ne by discriminate.
    rewrite (re_dest_group1 _ _ Hd). eapply matches_split, Hd. }
  split; [now rewrite G3, Hg, lookup_insert_eq|].
  split; [congruence|]. split; assumption.
Qed.

Lemma longest_computation_match_witness :
  exists grouped_c,
    re_match _re_line "D=D+1;JGT" = Some grouped_c
    /\ group grouped_c 1 = Some "D="
    /\ group grouped_c 3 = Some "D+1"
    /\ is_Some (comp_table !! "D")
    /\ strip_prefix "D" "D+1;JGT" <> None
    /\ (String.length "D" <= String.length "D+1")%nat.
Proof.
  destruct (re_match _re_line "D=D+1;JGT") as [g|] eqn:E;
    [|vm_compute in E; discriminate].
  exists g. split; [reflexivity|].
  assert (G1 : group g 1 = Some "D=")
    by (vm_compute in E; injection E as <-; vm_compute; reflexivity).
  assert (G3 : group g 3 = Some "D+1")
    by (vm_compute in E; injection E as <-; vm_compute; reflexivity).
  assert (HD : is_Some (comp_table !! "D"))
    by (vm_compute; eexists; reflexivity).
  assert (HP : strip_prefix "D" "D+1;JGT" <> None) by discriminate.
  split; [exact G1|]. split; [exact G3|]. split; [exact HD|].
  split; [exact HP|].
  destruct (longest_computation_match _ _ E)
    as (rest & t & Hln & Ht & _ & _ & Hl).
  rewrite G1 in Hln. rewrite G3 in Ht. injection Ht as <-.
  change ("D=D+1;JGT" = String "D" (String "=" rest)) in Hln.
  injection Hln as <-. exact (Hl "D" HD HP).
Defined.

(** ** [main] *)

Lemma length_format_016b_ge n : (16 <= String.length (format_016b n))%nat.
Proof.
  destruct n as [|p|p]; [vm_compute; lia| |]; unfold format_016b.
  - rewrite length_zfill. lia.
  - rewrite length_append, length_zfill. simpl. lia.
Qed.

Lemma resolve_all_app l1 l2 t :
  resolve_all (l1 ++ l2) t = resolve_all l2 (resolve_all l1 t).
Proof. apply foldl_app. Qed.

Lemma resolve_table_ok t l : table_ok t -> table_ok (resolve l t).2.
Proof. intros [Hu Ht]. now apply resolve_binary_address. Qed.

Lemma resolve_all_table_ok ls : forall t,
  table_ok t -> table_ok (resolve_all ls t).
Proof.
  induction ls as [|l ls IH]; intros t H; [assumption|].
  rewrite resolve_all_cons. now apply IH, resolve_table_ok.
Qed.

Lemma new_symboltable_table_ok raw :
  table_ok {| lines := instructions (_sanitizeasm raw);
              table := scan_table (_sanitizeasm raw) predefined 0;
              used := 15 |}.
Proof.
  split; cbn [used table]; [lia|].
  apply scan_table_binary_address; [lia|apply predefined_binary_address].
Qed.

(** With a symbol table, a line of pass 2 that parses is encoded, and
    its name, if it has one, is resolved; a line that does not parse ends
    in the [ParseError] of [subclass], or in the [OSError] of its log
    file, and leaves the table as it is. *)
Lemma new_parseline_pass2 ln loc t :
  ln <> "" -> label_shaped ln = false -> table_ok t ->
  if parses ln
  then exists p,
         new_parseline ln loc (Some t) =
           (OK p, Some (resolve_all (resolved_names [ln]) t))
         /\ line p = _sanitizeline ln /\ line_loc p = loc
         /\ type p <> None /\ (16 <= String.length (binary p))%nat
  else new_parseline ln loc (Some t) = (Raise (raised ln loc), Some t)
       /\ resolved_names [ln] = [].
Proof.
  intros Hne Hlab Hok. destruct ln as [|c0 s]; [congruence|].
  unfold parses, resolved_names. cbn [omap list_omap resolved_name first_char].
  destruct (Ascii.eqb_spec c0 "@") as [->|Hc0].
  - rewrite code_parse_at, new_parseline_address. cbn [orb].
    unfold address_parse.
    destruct (py_int s) as [n|] eqn:E; cbn [fst snd bind].
    + eexists. split; [reflexivity|]. cbn [type line_loc line binary].
      repeat split; try discriminate. apply length_format_016b_ge.
    + eexists. split; [reflexivity|]. cbn [type line_loc line binary].
      repeat split; try discriminate.
      pose proof (resolve_returns_entry t s) as Hr.
      destruct (resolve_table_ok t s Hok) as [_ Hv].
      apply Hv, binary_address_facts in Hr. tauto.
  - unfold new_parseline, subclass.
    destruct (code_parse_OK (String c0 s))
      as (g & dest & jmp & _ & Hd & Hj & H).
    destruct H as [[_ Hc]|(k & c & _ & _ & _ & Hcl & Hc)]; rewrite Hc;
      cbn [first_char]; (destruct (Ascii.eqb_spec c0 "@"); [congruence|]).
    + cbn [truthy fst snd orb]. rewrite is_label_nonempty, Hlab.
      cbn [bind String.eqb]. now rewrite raise_ParseError_positional.
    + destruct c as [|a cs]; [discriminate|]. cbn [truthy fst snd bind orb].
      eexists. split; [reflexivity|]. cbn [type line_loc line binary].
      repeat split; try discriminate.
      change (py_str (Some (String a cs))) with (String a cs).
      rewrite !length_append. lia.
Qed.

Lemma resolved_names_app a b :
  resolved_names (a ++ b) = (resolved_names a ++ resolved_names b)%list.
Proof. apply omap_app. Qed.

(** The loop of [main] from line [length pre] on. *)
Lemma main_loop_from t0 ls : forall pre parsed,
  lines t0 = (pre ++ ls)%list ->
  Forall (fun l => l <> "" /\ label_shaped l = false) ls ->
  table_ok t0 ->
  main_loop ls (Z.of_nat (length pre)) parsed
            (resolve_all (resolved_names pre) t0) =
  match head (omap id (imap (fun j => line_failure (length pre + j)) ls)) with
  | Some e => Raise e
  | None =>
      OK ((parsed
           ++ oks (imap (fun j => pass2_call t0 (length pre + j)) ls))%list,
          resolve_all (resolved_names (pre ++ ls)) t0)
  end.
Proof.
  induction ls as [|l ls IH]; intros pre parsed Hlines Hls Hok.
  - cbn. now rewrite !app_nil_r.
  - apply Forall_cons in Hls as [[Hne Hlab] Hls].
    rewrite !imap_cons. cbn [main_loop oks omap list_omap].
    fold (@oks parseline).
    assert (Hlen : (Z.of_nat (length pre) + 1)%Z
                   = Z.of_nat (length (pre ++ [l]))).
    { rewrite length_app. cbn [length]. lia. }
    assert (Hcall : pass2_call t0 (length pre + 0) l =
                    (new_parseline l (Some (Z.of_nat (length pre) + 1)%Z)
                       (Some (resolve_all (resolved_names pre) t0))).1).
    { unfold pass2_call. rewrite Nat.add_0_r, Hlines.
      now rewrite take_app_length. }
    assert (Hnext : forall {A} (f : nat -> string -> A),
              imap ((fun j => f (length pre + j)%nat) ∘ S) ls
              = imap (fun j => f (length (pre ++ [l]) + j)%nat) ls).
    { intros A f. apply imap_ext. intros j x _. cbn [compose].
      f_equal. rewrite length_app. cbn [length]. lia. }
    rewrite (Hnext _ line_failure), (Hnext _ (pass2_call t0)), Hcall.
    specialize (IH (pre ++ [l])%list).
    rewrite <- app_assoc in IH. cbn [app] in IH.
    rewrite resolved_names_app, resolve_all_app, <- Hlen in IH.
    pose proof (new_parseline_pass2 l (Some (Z.of_nat (length pre) + 1)%Z)
                  (resolve_all (resolved_names pre) t0) Hne Hlab
                  (resolve_all_table_ok _ _ Hok)) as Hl.
    unfold line_failure at 1. unfold raised in Hl. rewrite Nat.add_0_r.
    destruct (parses l).
    + destruct Hl as (p & -> & _). cbn [fst snd from_option id].
      rewrite (IH (parsed ++ [p])%list Hlines Hls Hok).
      destruct (head _); [reflexivity|]. now rewrite <- app_assoc.
    + destruct Hl as [-> Hnil]. rewrite Hnil in IH.
      cbn [resolve_all foldl] in IH. cbn [fst snd from_option id].
      destruct (log_write py l _ "./log.txt" "Unknown") as [[]|];
        [reflexivity|reflexivity|].
      destruct (report_write py l _) as [[]|];
        [reflexivity|reflexivity|].
      cbn [written bind fmap option_fmap option_map].
      apply (IH parsed Hlines Hls Hok).
Qed.

Lemma instructions_Forall ls :
  Forall (fun l => l <> "") ls ->
  Forall (fun l => l <> "" /\ label_shaped l = false) (instructions ls).
Proof.
  intros H. apply Forall_forall. intros l Hl. unfold instructions in Hl.
  apply list_elem_of_filter in Hl as [Hlab Hl]. split; [|assumption].
  rewrite Forall_forall in H. now apply H.
Qed.

(** X12.  The result of [main].  The table is constructed from the
    stripped lines; its [lines] are the lines of pass 2.  For line [i] of
    them, counted from 0, [main] calls [parseline] with the line, with
    [i + 1] as [line_loc] and with the table in which the names of the
    address instructions before the line are resolved.  A line that
    parses gives an instance with the sanitized line, that [line_loc], a
    type and a binary of at least 16 characters; a line that does not
    parse gives a [ParseError] for that line and [line_loc], or the
    exception of the write of its log file.  [main] ends in the exception
    of the first line that does not parse and whose log file or report
    cannot be written; with no such line, it writes the binaries of the
    lines that parse, in order, and ends in the exception of that write
    or returns their instances and the table with the names of all
    address instructions resolved. *)
Theorem main_result asm :
  exists t0,
    new_symboltable (py_strip <$> asm) = OK t0
    /\ (forall i l, lines t0 !! i = Some l ->
          if parses l
          then exists p,
                 pass2_call t0 i l = OK p
                 /\ line p = _sanitizeline l
                 /\ line_loc p = Some (Z.of_nat i + 1)%Z
                 /\ type p <> None
                 /\ (16 <= String.length (binary p))%nat
          else pass2_call t0 i l = Raise (raised l (Some (Z.of_nat i + 1)%Z)))
    /\ main asm =
       match head (omap id (imap line_failure (lines t0))) with
       | Some e => Raise e
       | None =>
           let parsed := oks (imap (pass2_call t0) (lines t0)) in
           match hack_write py (binary <$> parsed) with
           | Some e => Raise (write_exn e)
           | None =>
               OK (binary <$> parsed, parsed,
                   resolve_all (resolved_names (lines t0)) t0)
           end
       end.
Proof.
  unfold main. rewrite new_symboltable_OK. cbn [bind lines].
  set (t0 := {| lines := instructions (_sanitizeasm (py_strip <$> asm));
                table := scan_table (_sanitizeasm (py_strip <$> asm))
                           predefined 0;
                used := 15 |}).
  pose proof (new_symboltable_table_ok (py_strip <$> asm)) as Hok.
  pose proof (instructions_Forall _ (_sanitizeasm_nonempty (py_strip <$> asm)))
    as Hls.
  fold t0 in Hok. exists t0. split; [reflexivity|]. split.
  - intros i l Hi. rewrite Forall_forall in Hls.
    destruct (Hls l) as [Hne Hlab]; [eapply list_elem_of_lookup_2, Hi|].
    pose proof (new_parseline_pass2 l (Some (Z.of_nat i + 1)%Z)
                  (resolve_all (resolved_names (take i (lines t0))) t0)
                  Hne Hlab (resolve_all_table_ok _ _ Hok)) as Hl.
    unfold pass2_call. destruct (parses l).
    + destruct Hl as (p & -> & Hp). exists p. split; [reflexivity|exact Hp].
    + destruct Hl as [-> _]. reflexivity.
  - assert (H : main_loop (lines t0) 0 [] t0 =
                match head (omap id (imap line_failure (lines t0))) with
                | Some e => Raise e
                | None =>
                    OK (oks (imap (pass2_call t0) (lines t0)),
                        resolve_all (resolved_names (lines t0)) t0)
                end)
      by exact (main_loop_from t0 (lines t0) [] [] eq_refl Hls Hok).
    change (instructions (_sanitizeasm (py_strip <$> asm)))
      with (lines t0).
    rewrite H. destruct (head _); [reflexivity|]. cbn [bind fst snd].
    destruct (hack_write py _) as [e|]; reflexivity.
Qed.

Lemma _sanitizeasm_app a b :
  _sanitizeasm (a ++ b) = (_sanitizeasm a ++ _sanitizeasm b)%list.
Proof.
  induction a as [|l a IH]; [reflexivity|]. cbn [app _sanitizeasm].
  destruct (truthy (Some (_sanitizeline l))); [|assumption].
  cbn [app]. now rewrite IH.
Qed.

(** X13.  A line that sanitizes to the empty text (a blank line, a line
    of white space, a comment) has no effect on the result of [main]. *)
Theorem main_ignores_blank_lines a1 l a2 :
  _sanitizeline l = "" -> main (a1 ++ l :: a2) = main (a1 ++ a2).
Proof.
  intros H. unfold main, new_symboltable.
  rewrite !fmap_app, !_sanitizeasm_app. cbn [fmap list_fmap _sanitizeasm].
  rewrite sanitize_strip, H. reflexivity.
Qed.

(** ** The name of the output file *)

Lemma last_char_append a c b :
  last_char (a +:+ String c b) = last_char (String c b).
Proof.
  induction a as [|x a IH]; [reflexivity|].
  change (String x a +:+ String c b) with (String x (a +:+ String c b)).
  destruct a as [|y a]; [reflexivity|].
  change (last_char (String x (String y a +:+ String c b)))
    with (last_char (String y a +:+ String c b)).
  exact IH.
Qed.

Lemma hackfile_cons c s :
  String c s <> "asm" ->
  String c s <> asm_LF ->
  hackfile (String c s) = String c (hackfile s).
Proof.
  intros H1 H2. apply String.eqb_neq in H1, H2.
  cbn [hackfile]. now rewrite H1, H2.
Qed.

(** X14.  Without an output directory, [main] names the output after the
    source: a name ending in [asm] gets [hack] in its place, and a name
    that ends neither in [asm] nor in [asm] and a line feed is left as it
    is, so the output is written over the source. *)
Theorem hackfile_name :
  (forall stem, hackfile (stem +:+ "asm") = stem +:+ "hack")
  /\ (forall s,
        (forall stem, s <> stem +:+ "asm"
                      /\ s <> stem +:+ asm_LF) ->
        hackfile s = s).
Proof.
  split.
  - induction stem as [|c stem IH]; [reflexivity|].
    change (String c stem +:+ "asm") with (String c (stem +:+ "asm")).
    change (String c stem +:+ "hack") with (String c (stem +:+ "hack")).
    rewrite hackfile_cons, IH; [reflexivity| |].
    + intros H. apply (f_equal String.length) in H.
      cbn [String.length] in H. rewrite length_append in H.
      cbn [String.length] in H. lia.
    + intros H. apply (f_equal last_char) in H.
      change (String c (stem +:+ "asm")) with (String c stem +:+ "asm") in H.
      rewrite last_char_append in H. vm_compute in H. discriminate.
  - induction s as [|c s IH]; intros H; [reflexivity|].
    rewrite hackfile_cons.
    + rewrite IH; [reflexivity|]. intros stem.
      destruct (H (String c stem)) as [H1 H2].
      split; intros ->; [now apply H1|now apply H2].
    + apply (H ""). 
    + apply (H "").
Qed.

Lemma hackfile_name_witness :
  hackfile ("dir/Prog." +:+ "asm") = "dir/Prog." +:+ "hack"
  /\ (forall stem, "Prog.ASM" <> stem +:+ "asm"
                   /\ "Prog.ASM" <> stem +:+ asm_LF)
  /\ hackfile "Prog.ASM" = "Prog.ASM".
Proof.
  destruct hackfile_name as [H1 H2].
  split; [exact (H1 "dir/Prog.")|].
  assert (H : forall stem, "Prog.ASM" <> stem +:+ "asm"
                   /\ "Prog.ASM" <> stem +:+ asm_LF).
  { intros stem. unfold asm_LF.
    split; intros E; apply (f_equal last_char) in E;
      rewrite last_char_append in E; vm_compute in E; discriminate. }
  split; [exact H|exact (H2 _ H)].
Defined.

(** ** The syntax of label declarations *)

Lemma last_char_snoc s d :
  last_char s = OK d -> exists init, s = init +:+ String d "".
Proof.
  induction s as [|c s IH]; [discriminate|].
  destruct s as [|c' s].
  - intros [= ->]. now exists "".
  - change (last_char (String c (String c' s)))
      with (last_char (String c' s)).
    intros H. destruct (IH H) as [init ->]. now exists (String c init).
Qed.

Lemma substring_prefix a b : substring 0 (String.length a) (a +:+ b) = a.
Proof.
  induction a as [|c a IH]; [now destruct b|].
  change (String c a +:+ b) with (String c (a +:+ b)).
  cbn [String.length substring]. now rewrite IH.
Qed.

(** X15.  The lines [inittable] takes for label declarations are the
    texts [(name)], and the name it stores for such a line is the text
    between the parentheses. *)
Theorem label_syntax :
  (forall l, label_shaped l = true <-> exists name, l = "(" +:+ name +:+ ")")
  /\ forall name, slice_1_m1 ("(" +:+ name +:+ ")") = name.
Proof.
  split.
  - intros l. split.
    + unfold label_shaped, is_label. destruct l as [|c s]; [discriminate|].
      cbn [first_char bind].
      destruct (Ascii.eqb_spec c "(") as [->|]; [|discriminate].
      destruct s as [|c' s]; [discriminate|].
      change (last_char (String "(" (String c' s)))
        with (last_char (String c' s)).
      destruct (last_char (String c' s)) as [d|] eqn:E; [|discriminate].
      cbn [bind]. destruct (Ascii.eqb_spec d ")") as [->|]; [|discriminate].
      intros _. destruct (last_char_snoc _ _ E) as [init ->]. now exists init.
    + intros [name ->]. unfold label_shaped, is_label.
      change ("(" +:+ name +:+ ")") with (String "(" name +:+ String ")" "").
      rewrite last_char_append. reflexivity.
  - intros name. unfold slice_1_m1.
    change ("(" +:+ name +:+ ")") with (String "(" (name +:+ ")")).
    cbn [String.length]. rewrite length_append. cbn [String.length substring].
    replace (S (String.length name + 1) - 2)%nat with (String.length name)
      by lia.
    apply substring_prefix.
Qed.

(** ** Operands that are names *)


Lemma int_isspace_isspace c : py_isspace c = false -> int_isspace c = false.
Proof.
  unfold py_isspace, int_isspace.
  destruct (nat_of_ascii c) as [|n]; [reflexivity|].
  do 32 (destruct n as [|n]; [now vm_compute|]).
  intros H. exact H.
Qed.

Lemma int_rstrip_cons c s :
  int_isspace c = false -> exists r, int_rstrip (String c s) = String c r.
Proof.
  intros H. cbn [int_rstrip]. destruct (int_rstrip s); [rewrite H|]; eauto.
Qed.

(** X16.  An operand whose first character is no decimal digit, no sign
    and no white space is not an integer for [int()]: with a symbol
    table, the address instruction is what [resolve] gives for the
    operand. *)
Theorem symbolic_operand c s :
  is_digit c = false -> c <> "+"%char -> c <> "-"%char ->
  py_isspace c = false ->
  py_int (String c s) = None
  /\ forall loc t,
       new_parseline (String "@" (String c s)) loc (Some t) =
       (OK {| line := _sanitizeline (String "@" (String c s));
              line_loc := loc; type := Some a_type;
              binary := (resolve (String c s) t).1 |},
        Some (resolve (String c s) t).2).
Proof.
  intros Hd Hp Hm Hs.
  assert (Hint : py_int (String c s) = None).
  { apply int_isspace_isspace in Hs.
    unfold py_int. cbn [int_lstrip]. rewrite Hs.
    destruct (int_rstrip_cons c s Hs) as [r ->].
    destruct c as [[] [] [] [] [] [] [] []];
      try (exfalso; congruence); try discriminate Hd; reflexivity. }
  split; [exact Hint|]. intros loc t.
  rewrite new_parseline_address. unfold address_parse. now rewrite Hint.
Qed.

End Assembler.

(** * Runs on the default platform

    The examples of the statements above, with the default limit on the
    digits of [int()] and a log file that can be written. *)

(** FS is white space for [str.isspace] and none for [int()]: the operand
    is a name. *)
Lemma int_rejects_FS :
  py_isspace "028"%char = true
  /\ py_int default_platform (String "028" "5") = None
  /\ py_int default_platform " 5 " = Some 5%Z
  /\ py_int default_platform "+1_000" = Some 1000%Z.
Proof. repeat split; reflexivity. Qed.

(** The limit on the digits of [int()]: 4300 digits are converted, 4301
    are not, unless the interpreter has no limit. *)
Lemma int_digit_limit :
  py_int default_platform (zeros 4300) = Some 0%Z
  /\ py_int default_platform (zeros 4301) = None
  /\ py_int {| int_max_str_digits := 0;
               log_write := fun _ _ _ _ => None;
               report_write := fun _ _ => None;
               hack_write := fun _ => None |}
            (zeros 4301) = Some 0%Z.
Proof. repeat split; vm_compute; reflexivity. Qed.

Lemma compute_instruction_encoding_witness :
  new_parseline default_platform "D=D+1" None None =
  (OK {| line := "D=D+1"; line_loc := None; type := Some c_type;
         binary := "1110011111010000" |}, None).
Proof.
  destruct (compute_instruction_encoding default_platform (Some "D") "D+1" None "1110011111"
              None None) as (dc & jc & Hdc & Hjc & _ & _ & _ & _ & _ & Hp).
  - simpl. tauto.
  - vm_compute. reflexivity.
  - simpl. tauto.
  - vm_compute in Hdc. vm_compute in Hjc.
    injection Hdc as <-. injection Hjc as <-. exact Hp.
Defined.

Lemma symbolic_address_without_table_witness :
  py_int default_platform "foo" = None
  /\ new_parseline default_platform "@foo" None None =
     (Raise (TypeError "__init__() got an unexpected keyword argument 'type'"),
      None).
Proof.
  split; [reflexivity|].
  apply (symbolic_address_without_table default_platform "foo" None). reflexivity.
Defined.

Lemma address_instruction_encoding_witness :
  py_int default_platform "2" = Some 2%Z
  /\ (0 <= 2 < 65536)%Z
  /\ new_parseline default_platform "@2" None None =
     (OK {| line := "@2"; line_loc := None; type := Some a_type;
            binary := "0000000000000010" |}, None)
  /\ String.length "0000000000000010" = 16%nat
  /\ bin_value "0000000000000010" = 2%Z.
Proof.
  destruct (address_instruction_encoding default_platform "2" None) as [H _].
  destruct (H 2%Z None eq_refl) as (Hp & Hb & _).
  destruct (Hb ltac:(lia)) as (Hl & _ & Hv).
  split; [reflexivity|]. split; [lia|]. split; [exact Hp|].
  split; [exact Hl|exact Hv].
Defined.

(** C2, as stated, fails: [65536] is a non-negative integer and its
    instruction has 17 characters; [-5] is no non-negative integer, yet
    its instruction is the text of [-5] and not the text [resolve] gives
    the operand; the instruction of [-32768] has 17 characters. *)
Lemma address_instruction_not_16_characters :
  py_int default_platform "65536" = Some 65536%Z
  /\ new_parseline default_platform "@65536" None None =
     (OK {| line := "@65536"; line_loc := None; type := Some a_type;
            binary := "10000000000000000" |}, None)
  /\ String.length "10000000000000000" = 17%nat
  /\ py_int default_platform "-5" = Some (-5)%Z
  /\ (exists t0,
        new_symboltable [] = OK t0
        /\ (resolve "-5" t0).1 = "0000000000010000"
        /\ new_parseline default_platform "@-5" None (Some t0) =
           (OK {| line := "@-5"; line_loc := None; type := Some a_type;
                  binary := "-000000000000101" |}, Some t0))
  /\ py_int default_platform "-32768" = Some (-32768)%Z
  /\ new_parseline default_platform "@-32768" None None =
     (OK {| line := "@-32768"; line_loc := None; type := Some a_type;
            binary := "-1000000000000000" |}, None)
  /\ String.length "-1000000000000000" = 17%nat.
Proof.
  split; [reflexivity|]. split; [vm_compute; reflexivity|].
  split; [reflexivity|]. split; [reflexivity|]. split.
  - rewrite new_symboltable_OK. eexists. split; [reflexivity|].
    split; [vm_compute; reflexivity|].
    rewrite (new_parseline_address default_platform). reflexivity.
  - split; [reflexivity|]. split; [vm_compute; reflexivity|reflexivity].
Qed.

Lemma label_resolution_witness :
  _sanitizeasm ["(LOOP)"; "@LOOP"] = ([] ++ "(LOOP)" :: ["@LOOP"])%list
  /\ label_shaped "(LOOP)" = true
  /\ slice_1_m1 "(LOOP)" = "LOOP"
  /\ exists t,
       new_symboltable ["(LOOP)"; "@LOOP"] = OK t
       /\ lines t = ["@LOOP"]
       /\ (resolve "LOOP" t).1 = "0000000000000000"
       /\ (new_parseline default_platform "@LOOP" (Some 1%Z) (Some t)).1 =
          OK {| line := "@LOOP"; line_loc := Some 1%Z; type := Some a_type;
                binary := "0000000000000000" |}.
Proof.
  split; [reflexivity|]. split; [reflexivity|]. split; [reflexivity|].
  destruct (label_resolution default_platform ["(LOOP)"; "@LOOP"] [] "(LOOP)" ["@LOOP"])
    as (t & Ht & Hlines & _ & _ & Hres).
  - reflexivity.
  - reflexivity.
  - intros l [<-|[]]. discriminate.
  - exists t. split; [exact Ht|]. split; [exact Hlines|].
    destruct (Hres []) as [Hr Hp]. split; [exact Hr|].
    apply (Hp (Some 1%Z)). reflexivity.
Defined.

(** The two conditions of [label_resolution] at work.  A label declared
    twice: the last declaration wins, [L] resolves to 1.  A label whose
    name is an integer: [@7] is the number 7 and the entry of [7] is not
    used. *)
Lemma label_declared_twice :
  _sanitizeasm ["(L)"; "@1"; "(L)"; "@2"] =
    ([] ++ "(L)" :: ["@1"; "(L)"; "@2"])%list
  /\ label_shaped "(L)" = true
  /\ slice_1_m1 "(L)" = "L"
  /\ length (instructions []) = 0%nat
  /\ (exists t,
        new_symboltable ["(L)"; "@1"; "(L)"; "@2"] = OK t
        /\ lines t = ["@1"; "@2"]
        /\ (resolve "L" t).1 = "0000000000000001"
        /\ (resolve "L" t).1 <> format_016b 0)
  /\ (exists t,
        new_symboltable ["(7)"; "@7"] = OK t
        /\ lines t = ["@7"]
        /\ table t !! "7" = Some "0000000000000000"
        /\ (new_parseline default_platform "@7" (Some 1%Z) (Some t)).1 =
           OK {| line := "@7"; line_loc := Some 1%Z; type := Some a_type;
                 binary := "0000000000000111" |}).
Proof.
  split; [reflexivity|]. split; [reflexivity|]. split; [reflexivity|].
  split; [reflexivity|]. split.
  - rewrite new_symboltable_OK. eexists. split; [reflexivity|].
    split; [vm_compute; reflexivity|].
    assert (H : (resolve "L"
                   {| lines := instructions
                                 (_sanitizeasm ["(L)"; "@1"; "(L)"; "@2"]);
                      table := scan_table
                                 (_sanitizeasm ["(L)"; "@1"; "(L)"; "@2"])
                                 predefined 0;
                      used := 15 |}).1 = "0000000000000001")
      by (vm_compute; reflexivity).
    split; [exact H|]. rewrite H. discriminate.
  - rewrite new_symboltable_OK. eexists. split; [reflexivity|].
    split; [vm_compute; reflexivity|].
    split; [vm_compute; reflexivity|].
    rewrite (new_parseline_address default_platform). reflexivity.
Qed.

(** Labels, variables, predefined names, a comment and a line that does
    not parse: the bad line is skipped, the other lines are encoded in
    order. *)
Lemma main_example :
  (fun r => r.1.1) <$>
    match main default_platform ["(LOOP)"; "  @LOOP"; "@i"; "M=1 // set"; "@j"; "@i";
                "0;JMP"; "@R13"; "@SCREEN"; "foo"; "(END)"; "@END"] with
    | OK r => Some r
    | Raise _ => None
    end
  = Some ["0000000000000000"; "0000000000010000"; "1110111111001000";
          "0000000000010001"; "0000000000010000"; "1110101010000111";
          "0000000000001101"; "0100000000000000"; "0000000000001001"].
Proof. vm_compute. reflexivity. Qed.

Lemma parseline_classification_witness :
  new_parseline default_platform "0;JMP" (Some 7%Z) None =
    (OK {| line := "0;JMP"; line_loc := Some 7%Z; type := Some c_type;
           binary := "1110101010000111" |}, None)
  /\ String.length "1110101010000111" = 16%nat
  /\ is_binary "1110101010000111" = true.
Proof.
  assert (H : new_parseline default_platform "0;JMP" (Some 7%Z) None =
    (OK {| line := "0;JMP"; line_loc := Some 7%Z; type := Some c_type;
           binary := "1110101010000111" |}, None))
    by (vm_compute; reflexivity).
  split; [exact H|].
  destruct (parseline_classification default_platform _ _ _ _ _ H) as (_ & _ & Hc).
  cbn [type binary] in Hc. destruct Hc as (_ & _ & Hl & Hb & _).
  split; assumption.
Defined.

Lemma main_ignores_blank_lines_witness :
  _sanitizeline "   // the loop" = ""
  /\ main default_platform (["@2"] ++ "   // the loop" :: ["D=A"]) = main default_platform (["@2"] ++ ["D=A"]).
Proof.
  assert (H : _sanitizeline "   // the loop" = "") by reflexivity.
  split; [exact H|]. exact (main_ignores_blank_lines default_platform ["@2"] _ ["D=A"] H).
Defined.

Lemma symbolic_operand_witness :
  is_digit "s"%char = false /\ py_isspace "s"%char = false
  /\ py_int default_platform "sum.0" = None
  /\ exists t,
       new_symboltable [] = OK t
       /\ (new_parseline default_platform "@sum.0" None (Some t)).1 =
          OK {| line := "@sum.0"; line_loc := None; type := Some a_type;
                binary := "0000000000010000" |}.
Proof.
  assert (Hd : is_digit "s"%char = false) by reflexivity.
  assert (Hs : py_isspace "s"%char = false) by reflexivity.
  destruct (symbolic_operand default_platform "s"%char "um.0" Hd) as [Hint Hp];
    [discriminate|discriminate|exact Hs|].
  split; [exact Hd|]. split; [exact Hs|]. split; [exact Hint|].
  rewrite new_symboltable_OK. eexists. split; [reflexivity|].
  rewrite Hp. cbn [fst]. vm_compute. reflexivity.
Defined.

